(** * An npm gateway: request routing, entry resolution and CDN fallback

    A shallow embedding of [main.py]: the Python string operations the
    gateway uses, the values produced by [response.json()], the entry
    resolver [resolve_entry_file], the request dispatcher [handle_request]
    and the three handlers that talk to the registry and to the CDNs, then
    the properties of the specification that were checked against them. *)

From Stdlib Require Import ZArith String Ascii List DecimalString Lia.
From stdpp Require Import gmap strings list.

Open Scope string_scope.
Open Scope Z_scope.

(** ** Python [str] operations

    A Python [str] is modelled by a Rocq [string].  Every separator and
    character set the program uses is ASCII, so the functions below act the
    same on a string of code points and on its UTF-8 encoding.  Where the
    characters themselves matter (module [Codec] below) the string holds the
    UTF-8 bytes of the [str]; a lone surrogate, which an escape of a JSON
    document can produce and which has no UTF-8 encoding, is held as the
    three bytes that the UTF-8 scheme would give it. *)

Module PyStr.

(** what follows the prefix [p] in [s], when [s] starts with [p] *)
Fixpoint after_prefix (p s : string) : option string :=
  match p, s with
  | EmptyString, _ => Some s
  | String a p', String b s' =>
      if bool_decide (a = b) then after_prefix p' s' else None
  | String _ _, EmptyString => None
  end.

(** [s.startswith(p)] *)
Definition startswith (s p : string) : bool :=
  match after_prefix p s with Some _ => true | None => false end.

(** [sub in s] *)
Fixpoint contains (sub s : string) : bool :=
  startswith s sub ||
  match s with
  | EmptyString => false
  | String _ s' => contains sub s'
  end.

(** [s.endswith(suf)] *)
Fixpoint endswith (s suf : string) : bool :=
  bool_decide (s = suf) ||
  match s with
  | EmptyString => false
  | String _ s' => endswith s' suf
  end.

(** membership of one character in the character set of [lstrip]/[rstrip] *)
Fixpoint in_chars (c : ascii) (chars : string) : bool :=
  match chars with
  | EmptyString => false
  | String d chars' => bool_decide (c = d) || in_chars c chars'
  end.

(** [s.lstrip(chars)]: drops EVERY leading character that belongs to the
    set [chars]; it does not remove the string [chars] as a prefix. *)
Fixpoint lstrip (chars s : string) : string :=
  match s with
  | EmptyString => EmptyString
  | String c s' => if in_chars c chars then lstrip chars s' else s
  end.

(** [s.rstrip(chars)] *)
Fixpoint rstrip (chars s : string) : string :=
  match s with
  | EmptyString => EmptyString
  | String c s' =>
      match rstrip chars s' with
      | EmptyString => if in_chars c chars then EmptyString else String c EmptyString
      | r => String c r
      end
  end.

(** the text before and after the first occurrence of [sep], if any *)
Fixpoint partition (sep s : string) : option (string * string) :=
  match after_prefix sep s with
  | Some rest => Some (EmptyString, rest)
  | None =>
      match s with
      | EmptyString => None
      | String c s' =>
          match partition sep s' with
          | Some (a, b) => Some (String c a, b)
          | None => None
          end
      end
  end.

(** [s.split(sep, 1)]: at most one split, at the first occurrence *)
Definition split1 (sep s : string) : list string :=
  match partition sep s with
  | Some (a, b) => [a; b]
  | None => [s]
  end.

End PyStr.

Import PyStr.

(** ** Values returned by [response.json()]

    JSON objects become Python dicts keyed by strings, arrays become lists,
    [null] becomes [None].  A number is an integer: the program computes
    with none, and a number written with a fraction or an exponent is not
    covered. *)

#[warnings="-register-all"] Inductive json :=
| JNull
| JBool (b : bool)
| JNum (n : Z)
| JStr (s : string)
| JArr (l : list json)
| JObj (m : gmap string json).

(** ** Exceptions

    [RequestError] is what [client.get] raises (connection failure, timeout),
    [DecodeError] what [response.json()] raises on a body that is not JSON;
    both carry the text that [str(e)] returns.  The others are raised by the
    interpreter when an operation meets a value of the wrong type, or by
    [str.encode] on a character the codec does not have; their text is the
    one CPython 3.12 gives. *)

Inductive exn :=
| RequestError (msg : string)
| DecodeError (msg : string)
| AttributeError (msg : string)
| TypeError (msg : string)
| IndexError (msg : string)
| KeyError (key : json)
| UnicodeEncodeError (msg : string).

Inductive result (A : Type) :=
| Ret (a : A)
| Raise (e : exn).
Arguments Ret {A} a.
Arguments Raise {A} e.

(** [result] is a monad; stdpp's notation [x ← c; k] sequences two steps and
    lets an exception of the first skip the second. *)
#[export] Instance result_ret : MRet result := fun A a => Ret a.
#[export] Instance result_bind : MBind result := fun A B k r =>
  match r with
  | Ret a => k a
  | Raise e => Raise e
  end.

(** ** Dynamic typing: the operations of the interpreter *)

Module Py.

(** [type(v).__name__] *)
Definition type_name (v : json) : string :=
  match v with
  | JNull => "NoneType"
  | JBool _ => "bool"
  | JNum _ => "int"
  | JStr _ => "str"
  | JArr _ => "list"
  | JObj _ => "dict"
  end.

(** [bool(v)], which decides [if v] and [not v] *)
Definition truthy (v : json) : bool :=
  match v with
  | JNull => false
  | JBool b => b
  | JNum n => negb (n =? 0)
  | JStr s => negb (bool_decide (s = ""))
  | JArr l => match l with [] => false | _ => true end
  | JObj m => negb (bool_decide (m = ∅))
  end.

(** the integer a value stands for: [bool] is a subclass of [int] *)
Definition as_int (v : json) : option Z :=
  match v with
  | JNum n => Some n
  | JBool b => Some (if b then 1 else 0)
  | _ => None
  end.

(** [a == b] *)
Fixpoint eq (a b : json) {struct a} : bool :=
  match a, b with
  | JNull, JNull => true
  | JBool _, (JBool _ | JNum _) | JNum _, (JBool _ | JNum _) =>
      bool_decide (as_int a = as_int b)
  | JStr s, JStr t => bool_decide (s = t)
  | JArr l, JArr l' =>
      (fix all2 (l l' : list json) : bool :=
         match l, l' with
         | [], [] => true
         | x :: l, y :: l' => eq x y && all2 l l'
         | _, _ => false
         end) l l'
  | JObj m, JObj m' =>
      bool_decide (dom m = dom m') &&
      map_fold (fun k v acc =>
                  acc && match m' !! k with Some w => eq v w | None => false end)
               true m
  | _, _ => false
  end.

Definition unhashable (v : json) : exn :=
  TypeError ("unhashable type: '" ++ type_name v ++ "'").

(** [item in container] *)
Definition contains (item container : json) : result bool :=
  match container with
  | JObj m =>
      match item with
      | JArr _ | JObj _ => Raise (unhashable item)
      | JStr k => Ret (bool_decide (is_Some (m !! k)))
      | _ => Ret false
      end
  | JArr l => Ret (existsb (eq item) l)
  | JStr s =>
      match item with
      | JStr t => Ret (PyStr.contains t s)
      | _ => Raise (TypeError ("'in <string>' requires string as left operand, not "
                               ++ type_name item))
      end
  | _ => Raise (TypeError ("argument of type '" ++ type_name container
                           ++ "' is not iterable"))
  end.

(** the position a sequence of length [len] gives to index [i], on a 64-bit
    interpreter; [kind] names the sequence in the error *)
Definition index (kind : string) (len i : Z) : result nat :=
  if (i <? - 2 ^ 63) || (2 ^ 63 - 1 <? i) then
    Raise (IndexError "cannot fit 'int' into an index-sized integer")
  else
    let j := if i <? 0 then i + len else i in
    if (0 <=? j) && (j <? len) then Ret (Z.to_nat j)
    else Raise (IndexError (kind ++ " index out of range")).

(** [container[key]] *)
Definition getitem (container key : json) : result json :=
  match container with
  | JObj m =>
      match key with
      | JArr _ | JObj _ => Raise (unhashable key)
      | JStr k => match m !! k with Some v => Ret v | None => Raise (KeyError key) end
      | _ => Raise (KeyError key)
      end
  | JArr l =>
      match as_int key with
      | Some i =>
          n ← index "list" (Z.of_nat (length l)) i;
          match l !! n with
          | Some v => Ret v
          | None => Raise (IndexError "list index out of range")
          end
      | None => Raise (TypeError ("list indices must be integers or slices, not "
                                  ++ type_name key))
      end
  | JStr s =>
      match as_int key with
      | Some i =>
          n ← index "string" (Z.of_nat (String.length s)) i;
          match String.get n s with
          | Some c => Ret (JStr (String c EmptyString))
          | None => Raise (IndexError "string index out of range")
          end
      | None => Raise (TypeError ("string indices must be integers, not '"
                                  ++ type_name key ++ "'"))
      end
  | _ => Raise (TypeError ("'" ++ type_name container ++ "' object is not subscriptable"))
  end.

Definition no_attribute (v : json) (attr : string) : exn :=
  AttributeError ("'" ++ type_name v ++ "' object has no attribute '" ++ attr ++ "'").

(** [d.get(key, default)]: only a dict has the method *)
Definition get (d : json) (key : string) (dflt : json) : result json :=
  match d with
  | JObj m => Ret (default dflt (m !! key))
  | _ => Raise (no_attribute d "get")
  end.

(** [v.lstrip(chars)]: only a str has the method *)
Definition lstrip (v : json) (chars : string) : result string :=
  match v with
  | JStr s => Ret (PyStr.lstrip chars s)
  | _ => Raise (no_attribute v "lstrip")
  end.

End Py.

(** ** The entry resolver *)

(** Step 2 of [resolve_entry_file], run once [exports] has been read:
    [Some entry] when the step returns [entry], [None] when control falls
    through to the [main] field. *)
Definition entry_of_exports (exports : json) : result (option string) :=
  match exports with
  | JObj ex =>
      match ex !! "." with
      | Some dot_export =>
          match dot_export with
          | JObj d =>
              match d !! "default" with
              | Some entry => s ← Py.lstrip entry "./"; mret (Some s)
              | None => mret None
              end
          | JStr s => mret (Some (lstrip "./" s))
          | _ => mret None
          end
      | None => mret None
      end
  | _ => mret None
  end.

(** [resolve_entry_file(package_json)]: the result [None] is Python's [None]. *)
Definition resolve_entry_file (package_json : json) : result (option string) :=
  has_jsdelivr ← Py.contains (JStr "jsdelivr") package_json;
  if has_jsdelivr : bool then
    entry ← Py.getitem package_json (JStr "jsdelivr");
    s ← Py.lstrip entry "./";
    mret (Some s)
  else
    has_exports ← Py.contains (JStr "exports") package_json;
    returned ← (if has_exports : bool then
                  exports ← Py.getitem package_json (JStr "exports");
                  entry_of_exports exports
                else mret None);
    match returned with
    | Some entry => mret (Some entry)
    | None =>
        has_main ← Py.contains (JStr "main") package_json;
        if has_main : bool then
          entry ← Py.getitem package_json (JStr "main");
          s ← Py.lstrip entry "./";
          mret (Some s)
        else mret None
    end.

(** ** The request classifier

    [handle_request] is a chain of five guarded cases closed by a bare 404.
    [classify] is that chain, read as a function from the path to the case
    taken together with the arguments the case computes; [handle_request]
    below runs the handler of the case. *)

Inductive RequestShape :=
| PackageEntry (package_name : string)
| PackageDirLatest (package_name : string)
| PackageEntryVersioned (package_name version : string)
| PackageDirVersioned (package_name version : string)
| PackageFileVersioned (package_name version file_path : string)
| Unmatched.

(** Case 5 and the final fall-through. *)
Definition classify_file (full_path : string) : RequestShape :=
  if contains "@" full_path then
    let parts := split1 "@" full_path in
    let package_name := parts !!! 0%nat in
    if contains "/" (parts !!! 1%nat) then
      let version_and_path := split1 "/" (parts !!! 1%nat) in
      PackageFileVersioned package_name
        (version_and_path !!! 0%nat) (version_and_path !!! 1%nat)
    else Unmatched
  else Unmatched.

Definition classify (full_path : string) : RequestShape :=
  if negb (contains "@" full_path) && negb (endswith full_path "/") then
    PackageEntry full_path
  else if negb (contains "@" full_path) && endswith full_path "/" then
    PackageDirLatest (rstrip "/" full_path)
  else if contains "@" full_path
          && negb (contains "/" (split1 "@" full_path !!! 1%nat)) then
    let parts := split1 "@" full_path in
    PackageEntryVersioned (parts !!! 0%nat) (parts !!! 1%nat)
  else if endswith full_path "/" then
    let parts := split1 "@" (rstrip "/" full_path) in
    if Nat.eqb (length parts) 2 then
      PackageDirVersioned (parts !!! 0%nat) (parts !!! 1%nat)
    else classify_file full_path
  else classify_file full_path.

(** ** Encoding a [str]

    Starlette encodes every header of a response as latin-1, and
    [RedirectResponse] quotes its URL, which encodes it as UTF-8; either
    raises [UnicodeEncodeError] on a character the codec does not have. *)

Module Codec.

Definition byte (c : ascii) : Z := Z.of_N (N_of_ascii c).

(** the six payload bits of a continuation byte *)
Definition low6 (c : ascii) : Z := Z.land (byte c) 0x3F.

(** the characters of a [str], from its bytes: one, two, three or four
    bytes a character, by the first byte *)
Fixpoint code_points (s : string) : list Z :=
  match s with
  | EmptyString => []
  | String b0 s1 =>
      if byte b0 <? 0x80 then byte b0 :: code_points s1
      else
        match s1 with
        | EmptyString => [byte b0]
        | String b1 s2 =>
            if byte b0 <? 0xE0 then
              Z.lor (Z.shiftl (Z.land (byte b0) 0x1F) 6) (low6 b1) :: code_points s2
            else
              match s2 with
              | EmptyString => [byte b0; byte b1]
              | String b2 s3 =>
                  if byte b0 <? 0xF0 then
                    Z.lor (Z.shiftl (Z.land (byte b0) 0x0F) 12)
                      (Z.lor (Z.shiftl (low6 b1) 6) (low6 b2)) :: code_points s3
                  else
                    match s3 with
                    | EmptyString => [byte b0; byte b1; byte b2]
                    | String b3 s4 =>
                        Z.lor (Z.shiftl (Z.land (byte b0) 0x07) 18)
                          (Z.lor (Z.shiftl (low6 b1) 12)
                             (Z.lor (Z.shiftl (low6 b2) 6) (low6 b3)))
                        :: code_points s4
                    end
              end
        end
  end.

(** the two codecs the frameworks use: latin-1 for a header value, UTF-8
    for a URL that is quoted *)
Inductive encoding := Latin1 | Utf8.

Definition name (e : encoding) : string :=
  match e with Latin1 => "latin-1" | Utf8 => "utf-8" end.

Definition reason (e : encoding) : string :=
  match e with
  | Latin1 => "ordinal not in range(256)"
  | Utf8 => "surrogates not allowed"
  end.

(** a character the codec refuses: above U+00FF for latin-1, a surrogate
    for UTF-8 *)
Definition unencodable (e : encoding) (cp : Z) : bool :=
  match e with
  | Latin1 => 0xFF <? cp
  | Utf8 => (0xD800 <=? cp) && (cp <=? 0xDFFF)
  end.

(** the number of refused characters at the head of [cps] *)
Fixpoint run_length (bad : Z -> bool) (cps : list Z) : nat :=
  match cps with
  | cp :: rest => if bad cp then S (run_length bad rest) else 0%nat
  | [] => 0%nat
  end.

(** the first refused character, with the positions where the run of
    refused characters it opens starts and stops *)
Fixpoint first_bad (bad : Z -> bool) (cps : list Z) (pos : nat)
  : option (nat * nat * Z) :=
  match cps with
  | [] => None
  | cp :: rest =>
      if bad cp then Some (pos, S (pos + run_length bad rest)%nat, cp)
      else first_bad bad rest (S pos)
  end.

Definition hex_digit (d : Z) : string :=
  String.substring (Z.to_nat d) 1 "0123456789abcdef".

Fixpoint hex (width : nat) (n : Z) : string :=
  match width with
  | O => ""
  | S w => hex_digit ((n / 16 ^ Z.of_nat w) mod 16) ++ hex w n
  end.

(** how the error names the character *)
Definition escape (cp : Z) : string :=
  if cp <=? 0xFF then "\x" ++ hex 2 cp
  else if cp <=? 0xFFFF then "\u" ++ hex 4 cp
  else "\U" ++ hex 8 cp.

Definition decimal (n : nat) : string := NilZero.string_of_uint (Nat.to_uint n).

(** [str(e)] for the [UnicodeEncodeError] of a strict encoder *)
Definition error_text (e : encoding) (start stop : nat) (badchar : Z) : string :=
  if Nat.eqb stop (S start) then
    "'" ++ name e ++ "' codec can't encode character '" ++ escape badchar
    ++ "' in position " ++ decimal start ++ ": " ++ reason e
  else
    "'" ++ name e ++ "' codec can't encode characters in position "
    ++ decimal start ++ "-" ++ decimal (stop - 1) ++ ": " ++ reason e.

(** [s.encode(e)], for what it raises; the bytes produced are not used *)
Definition encode (e : encoding) (s : string) : result unit :=
  match first_bad (unencodable e) (code_points s) 0 with
  | None => Ret tt
  | Some (start, stop, badchar) =>
      Raise (UnicodeEncodeError (error_text e start stop badchar))
  end.

Definition encodable (e : encoding) (s : string) : bool :=
  match encode e s with Ret _ => true | Raise _ => false end.

End Codec.

(** ** Responses and the network *)

(** What an upstream server answers to a GET: [header_content_type] is
    [response.headers.get("content-type")], [json] the outcome of
    [response.json()]. *)
Record http_response := {
  status_code : Z;
  content : string;
  header_content_type : option string;
  json_body : result json
}.

(** The two [httpx.AsyncClient] configurations of the program: the one that
    queries the registry (timeout 30 s) and the one that downloads from a CDN
    (timeout 15 s, two retries, redirects followed). *)
Inductive client := RegistryClient | CdnClient.

Inductive call := Get (c : client) (url : string).

Definition is_cdn_call (c : call) : bool :=
  match c with Get CdnClient _ => true | Get RegistryClient _ => false end.

(** What the handlers return to the framework, by constructor. *)
Inductive response :=
| Response (body : string) (status : Z) (media_type : option string)
           (headers : list (string * string))
| HTMLResponse (body : string) (status : Z)
| RedirectResponse (url : string).

Definition status_of (r : response) : Z :=
  match r with
  | Response _ st _ _ | HTMLResponse _ st => st
  | RedirectResponse _ => 307
  end.

Definition body_of (r : response) : string :=
  match r with
  | Response b _ _ _ | HTMLResponse b _ => b
  | RedirectResponse _ => ""
  end.

Definition NPM_REGISTRY : string := "https://registry.npmjs.org".
Definition JSDELIVR_CDN : string := "https://cdn.jsdelivr.net/npm".
Definition UNPKG_CDN : string := "https://unpkg.com".

(** A computation that may raise and that records, in order, the requests it
    sends. *)
Definition IO (A : Type) : Type := list call -> result A * list call.

Definition io_ret {A} (a : A) : IO A := fun log => (Ret a, log).

Definition io_bind {A B} (m : IO A) (k : A -> IO B) : IO B := fun log =>
  match m log with
  | (Ret a, log') => k a log'
  | (Raise e, log') => (Raise e, log')
  end.

(** a step that does no request *)
Definition io_lift {A} (r : result A) : IO A := fun log => (r, log).

(** [try: body except Exception as e: handler(e)] *)
Definition io_try {A} (body : IO A) (handler : exn -> IO A) : IO A := fun log =>
  match body log with
  | (Ret a, log') => (Ret a, log')
  | (Raise e, log') => handler e log'
  end.

#[export] Instance io_mret : MRet IO := @io_ret.
#[export] Instance io_mbind : MBind IO := fun A B k m => io_bind m k.

(** a running request handler, started with an empty record *)
Definition run {A} (m : IO A) : result A * list call := m [].

Definition quote_char : string := String "034"%char EmptyString.
Definition newline : string := String "010"%char EmptyString.

Section Gateway.

(** The outside world during one request: the answer of each server to
    each GET (every URL is requested at most once while a request is
    handled), and Python's [repr], which renders a list, a dict or a quoted
    string when one is formatted. *)
Variable net : client -> string -> result http_response.
Variable py_repr : json -> string.

(** [await client.get(url)] *)
Definition http_get (c : client) (url : string) : IO http_response :=
  fun log => (net c url, (log ++ [Get c url])%list).

(** [str(v)], which is how an f-string renders [{v}] *)
Definition py_str (v : json) : string :=
  match v with
  | JStr s => s
  | JNull => "None"
  | JBool true => "True"
  | JBool false => "False"
  | JNum n => NilZero.string_of_int (Z.to_int n)
  | JArr _ | JObj _ => py_repr v
  end.

(** [str(e)] *)
Definition str_exn (e : exn) : string :=
  match e with
  | RequestError msg | DecodeError msg | AttributeError msg
  | TypeError msg | IndexError msg | UnicodeEncodeError msg => msg
  | KeyError key => py_repr key
  end.

(** *** The content fetcher *)

Definition file_response (r : http_response) : response :=
  let content_type := default "text/plain" (header_content_type r) in
  Response (content r) 200 (Some content_type)
           [("Content-Type", content_type); ("Access-Control-Allow-Origin", "*")].

(** What [Response(..., headers=...)] does with its headers: every name and
    every value is encoded as latin-1 (the names, lower-cased first, are
    ASCII literals in this program). *)
Fixpoint init_headers (headers : list (string * string)) : result unit :=
  match headers with
  | [] => Ret tt
  | (name, value) :: rest =>
      _ ← Codec.encode Codec.Latin1 name;
      _ ← Codec.encode Codec.Latin1 value;
      init_headers rest
  end.

(** One turn of the loop [for cdn_url in cdn_urls]: [Some r] when the
    turn returns [r], [None] when it ends (status other than 200) or is
    abandoned by [except Exception: continue], which [client.get] or the
    construction of the response can cause. *)
Definition try_origin (cdn_url : string) : IO (option response) :=
  io_try
    (r ← http_get CdnClient cdn_url;
     if status_code r =? 200 then
       let content_type := default "text/plain" (header_content_type r) in
       _ ← io_lift (init_headers [("Content-Type", content_type);
                                  ("Access-Control-Allow-Origin", "*")]);
       mret (Some (file_response r))
     else mret None)
    (fun _ => mret None).

(** the loop, and the 404 that follows it *)
Fixpoint fetch_first (cdn_urls : list string) : IO response :=
  match cdn_urls with
  | [] => mret (Response "404 File Not Found" 404 None [])
  | cdn_url :: rest =>
      returned ← try_origin cdn_url;
      match returned with
      | Some r => mret r
      | None => fetch_first rest
      end
  end.

Definition cdn_urls (package_name version file_path : string) : list string :=
  [ JSDELIVR_CDN ++ "/" ++ package_name ++ "@" ++ version ++ "/" ++ file_path;
    UNPKG_CDN ++ "/" ++ package_name ++ "@" ++ version ++ "/" ++ file_path ].

Definition get_package_file (package_name version file_path : string) : IO response :=
  fetch_first (cdn_urls package_name version file_path).

(** *** The entry handler *)

Definition get_package_entry (package_name : string) (version : option string)
  : IO response :=
  io_try
    (r ← http_get RegistryClient (NPM_REGISTRY ++ "/" ++ package_name);
     if status_code r =? 404 then
       mret (Response "404 Package Not Found" 404 None [])
     else
       package_data ← io_lift (json_body r);
       let version := match version with Some v => JStr v | None => JNull end in
       version ← io_lift
         (if negb (Py.truthy version) then
            dist_tags ← Py.get package_data "dist-tags" (JObj ∅);
            Py.get dist_tags "latest" JNull
          else mret version);
       versions ← io_lift (Py.get package_data "versions" (JObj ∅));
       present ← io_lift (Py.contains version versions);
       if negb present then
         mret (Response ("404 Version " ++ py_str version ++ " Not Found") 404 None [])
       else
         version_data ← io_lift
           (versions ← Py.getitem package_data (JStr "versions");
            Py.getitem versions version);
         entry_file ← io_lift (resolve_entry_file version_data);
         match entry_file with
         | None => mret (Response "404 Not Found" 404 None [])
         | Some entry_file =>
             get_package_file package_name (py_str version) entry_file
         end)
    (fun e => mret (Response ("Error: " ++ str_exn e) 500 None [])).

(** *** The directory handlers *)

Definition files : list string := ["index.js"; "package.json"; "README.md"].

Definition file_links : string :=
  fold_left
    (fun acc file_name =>
       acc ++ "<li><a href=" ++ quote_char ++ file_name ++ quote_char ++ ">"
           ++ file_name ++ "</a></li>" ++ newline)
    files "".

Definition html_content (package_name : string) : string :=
  "<!DOCTYPE HTML>" ++ newline ++
  "<html>" ++ newline ++
  "<head>" ++ newline ++
  "<meta charset=" ++ quote_char ++ "utf-8" ++ quote_char ++ ">" ++ newline ++
  "<title>" ++ package_name ++ "</title>" ++ newline ++
  "</head>" ++ newline ++
  "<body>" ++ newline ++
  "<h1>" ++ package_name ++ "</h1>" ++ newline ++
  "<hr>" ++ newline ++
  "<ul>" ++ newline ++
  file_links ++ "</ul>" ++ newline ++
  "<hr>" ++ newline ++
  "</body>" ++ newline ++
  "</html>".

Definition get_package_directory (package_name version : string) : IO response :=
  io_try
    (r ← http_get RegistryClient (NPM_REGISTRY ++ "/" ++ package_name);
     if status_code r =? 404 then
       mret (HTMLResponse "<h1>404 Package Not Found</h1>" 404)
     else
       package_data ← io_lift (json_body r);
       versions ← io_lift (Py.get package_data "versions" (JObj ∅));
       present ← io_lift (Py.contains (JStr version) versions);
       if negb present then
         mret (HTMLResponse ("<h1>404 Version " ++ version ++ " Not Found</h1>") 404)
       else
         mret (HTMLResponse (html_content package_name) 200))
    (fun e => mret (HTMLResponse ("<h1>Error: " ++ str_exn e ++ "</h1>") 500)).

(** case 2 of [handle_request]: redirect to the directory of the latest
    version; [RedirectResponse] quotes the URL it is given, which encodes it
    as UTF-8 *)
Definition redirect_to_latest (package_name : string) : IO response :=
  io_try
    (r ← http_get RegistryClient (NPM_REGISTRY ++ "/" ++ package_name);
     if status_code r =? 404 then
       mret (HTMLResponse "<h1>404 Package Not Found</h1>" 404)
     else
       package_data ← io_lift (json_body r);
       latest_version ← io_lift
         (dist_tags ← Py.get package_data "dist-tags" (JObj ∅);
          Py.get dist_tags "latest" JNull);
       if Py.truthy latest_version then
         let url := "/" ++ package_name ++ "@" ++ py_str latest_version ++ "/" in
         _ ← io_lift (Codec.encode Codec.Utf8 url);
         mret (RedirectResponse url)
       else
         mret (HTMLResponse "<h1>Error: Cannot find latest version</h1>" 500))
    (fun e => mret (HTMLResponse ("<h1>Error: " ++ str_exn e ++ "</h1>") 500)).

(** *** The dispatcher *)

Definition handle_request (full_path : string) : IO response :=
  match classify full_path with
  | PackageEntry package_name => get_package_entry package_name None
  | PackageDirLatest package_name => redirect_to_latest package_name
  | PackageEntryVersioned package_name version =>
      get_package_entry package_name (Some version)
  | PackageDirVersioned package_name version =>
      get_package_directory package_name version
  | PackageFileVersioned package_name version file_path =>
      get_package_file package_name version file_path
  | Unmatched => mret (Response "404 Not Found" 404 None [])
  end.

End Gateway.

(** ** Request shapes, by name *)

Inductive ShapeKind :=
| KPackageEntry
| KPackageDirLatest
| KPackageEntryVersioned
| KPackageDirVersioned
| KPackageFileVersioned
| KUnmatched.

Definition kind_of (shape : RequestShape) : ShapeKind :=
  match shape with
  | PackageEntry _ => KPackageEntry
  | PackageDirLatest _ => KPackageDirLatest
  | PackageEntryVersioned _ _ => KPackageEntryVersioned
  | PackageDirVersioned _ _ => KPackageDirVersioned
  | PackageFileVersioned _ _ _ => KPackageFileVersioned
  | Unmatched => KUnmatched
  end.

(** the package component of a shape that has one *)
Definition package_of (shape : RequestShape) : option string :=
  match shape with
  | PackageEntry p | PackageDirLatest p | PackageEntryVersioned p _
  | PackageDirVersioned p _ | PackageFileVersioned p _ _ => Some p
  | Unmatched => None
  end.

(** what follows the first [@] of a path *)
Definition after_at (path : string) : string :=
  match partition "@" path with
  | Some (_, rest) => rest
  | None => ""
  end.

(** The table of patterns of the specification, one row per shape: the
    directory row asks for an [@] and a trailing [/], the file row for a [/]
    after the [@] in a path that is not a directory, and [Unmatched] is
    whatever no row takes. *)
Definition pattern (k : ShapeKind) (path : string) : bool :=
  match k with
  | KPackageEntry => negb (contains "@" path) && negb (endswith path "/")
  | KPackageDirLatest => negb (contains "@" path) && endswith path "/"
  | KPackageEntryVersioned => contains "@" path && negb (contains "/" (after_at path))
  | KPackageDirVersioned => contains "@" path && endswith path "/"
  | KPackageFileVersioned =>
      contains "@" path && contains "/" (after_at path) && negb (endswith path "/")
  | KUnmatched =>
      negb (negb (contains "@" path)
            || (contains "@" path && negb (contains "/" (after_at path)))
            || (contains "@" path && endswith path "/")
            || (contains "@" path && contains "/" (after_at path)))
  end.

(** ** The stripping of the specification *)

(** The stripping the specification describes: a leading [./] or a leading
    [/] is removed, and nothing else. *)
Definition strip_leading_spec (s : string) : string :=
  match after_prefix "./" s with
  | Some rest => rest
  | None =>
      match after_prefix "/" s with
      | Some rest => rest
      | None => s
      end
  end.

(** a path whose first character is neither a dot nor a slash *)
Definition plain_start (s : string) : bool :=
  match s with
  | EmptyString => true
  | String c _ => negb (in_chars c "./")
  end.

(** ** Sample manifests *)

(** a version whose CDN build lives in a hidden directory *)
Definition manifest_hidden_build : gmap string json :=
  {[ "jsdelivr" := JStr "./.build/index.min.js"; "main" := JStr "index.js" ]}.

Definition exports_import_only : gmap string json :=
  {[ "." := JObj {[ "import" := JStr "./esm/index.mjs" ]} ]}.

(** [exports["."]] is a dict without [default]; [main] is present *)
Definition manifest_exports_no_default : gmap string json :=
  {[ "exports" := JObj exports_import_only; "main" := JStr "./lib/index.js" ]}.

(** the same, with a [jsdelivr] field *)
Definition manifest_exports_and_jsdelivr : gmap string json :=
  {[ "jsdelivr" := JStr "dist/pkg.min.js";
     "exports" := JObj exports_import_only;
     "main" := JStr "index.js" ]}.

(** no [jsdelivr], no [exports], no [main] *)
Definition manifest_no_entry : gmap string json :=
  {[ "name" := JStr "left-pad"; "version" := JStr "1.3.0" ]}.

(** ** Sample servers *)

(** A stand-in for Python's [repr] in the examples; none of them formats a
    list, a dict or a key error. *)
Definition sample_repr (v : json) : string :=
  match v with
  | JStr s => "'" ++ s ++ "'"
  | _ => ""
  end.

Definition js_file (body : string) : http_response :=
  {| status_code := 200; content := body;
     header_content_type := Some "application/javascript; charset=utf-8";
     json_body := Raise (DecodeError "Expecting value: line 1 column 1 (char 0)") |}.

Definition error_page (code : Z) : http_response :=
  {| status_code := code; content := "<html>error</html>";
     header_content_type := Some "text/html";
     json_body := Raise (DecodeError "Expecting value: line 1 column 1 (char 0)") |}.

Definition json_page (code : Z) (body : json) : http_response :=
  {| status_code := code; content := "";
     header_content_type := Some "application/json";
     json_body := Ret body |}.

(** jsDelivr answers 200 *)
Definition net_jsdelivr_up (c : client) (url : string) : result http_response :=
  if String.eqb url "https://cdn.jsdelivr.net/npm/lodash@4.17.21/lodash.js"
  then Ret (js_file "/* lodash */")
  else Raise (RequestError "All connection attempts failed").

(** jsDelivr is unreachable, unpkg answers 200 *)
Definition net_unpkg_only (c : client) (url : string) : result http_response :=
  if String.eqb url "https://unpkg.com/lodash@4.17.21/lodash.js"
  then Ret (js_file "/* lodash */")
  else Raise (RequestError "All connection attempts failed").

(** jsDelivr answers 503, unpkg is unreachable *)
Definition net_cdn_down (c : client) (url : string) : result http_response :=
  if String.eqb url "https://cdn.jsdelivr.net/npm/lodash@4.17.21/lodash.js"
  then Ret (error_page 503)
  else Raise (RequestError "All connection attempts failed").

(** the registry does not know the package *)
Definition net_unknown_package (c : client) (url : string) : result http_response :=
  match c with
  | RegistryClient => Ret (json_page 404 (JObj {[ "error" := JStr "Not found" ]}))
  | CdnClient => Ret (js_file "/* never requested */")
  end.

(** the registry fails with a 500 and a JSON error body *)
Definition net_registry_500_json (c : client) (url : string) : result http_response :=
  match c with
  | RegistryClient =>
      Ret (json_page 500 (JObj {[ "error" := JStr "Internal Server Error" ]}))
  | CdnClient => Ret (js_file "/* never requested */")
  end.

(** the registry sends the same JSON body with status 200 *)
Definition net_registry_200_json (c : client) (url : string) : result http_response :=
  match c with
  | RegistryClient =>
      Ret (json_page 200 (JObj {[ "error" := JStr "Internal Server Error" ]}))
  | CdnClient => Ret (js_file "/* never requested */")
  end.

(** the registry fails with a 502 and an HTML error page *)
Definition net_registry_502_html (c : client) (url : string) : result http_response :=
  match c with
  | RegistryClient => Ret (error_page 502)
  | CdnClient => Ret (js_file "/* never requested */")
  end.

(** the registry fails with a 503 whose JSON body is a bare string *)
Definition net_registry_503_string (c : client) (url : string) : result http_response :=
  match c with
  | RegistryClient => Ret (json_page 503 (JStr "Service Unavailable"))
  | CdnClient => Ret (js_file "/* never requested */")
  end.

Definition lodash_versions : gmap string json :=
  {[ "4.17.21" := JObj {[ "main" := JStr "lodash.js" ]} ]}.

Definition lodash_manifest : gmap string json :=
  {[ "dist-tags" := JObj {[ "latest" := JStr "4.17.21"; "beta" := JStr "5.0.0-beta.1" ]};
     "versions" := JObj lodash_versions ]}.

(** a healthy registry and a healthy jsDelivr *)
Definition net_lodash (c : client) (url : string) : result http_response :=
  match c with
  | RegistryClient => Ret (json_page 200 (JObj lodash_manifest))
  | CdnClient => net_jsdelivr_up c url
  end.

(** a 200 whose Content-Type names the file in characters beyond latin-1 *)
Definition js_file_named (body : string) : http_response :=
  {| status_code := 200; content := body;
     header_content_type := Some "application/javascript; name=日本.js";
     json_body := Raise (DecodeError "Expecting value: line 1 column 1 (char 0)") |}.

(** jsDelivr answers 200 with such a Content-Type, unpkg answers a plain 200 *)
Definition net_jsdelivr_unsendable (c : client) (url : string) : result http_response :=
  if String.eqb url "https://cdn.jsdelivr.net/npm/lodash@4.17.21/lodash.js"
  then Ret (js_file_named "/* lodash, from jsDelivr */")
  else if String.eqb url "https://unpkg.com/lodash@4.17.21/lodash.js"
  then Ret (js_file "/* lodash, from unpkg */")
  else Raise (RequestError "All connection attempts failed").

(** the three bytes of the lone surrogate U+D800, as the JSON escape
    [\ud800] gives it *)
Definition lone_surrogate : string :=
  String "237"%char (String "160"%char (String "128"%char EmptyString)).

(** a registry whose [latest] tag holds a lone surrogate *)
Definition net_surrogate_latest (c : client) (url : string) : result http_response :=
  match c with
  | RegistryClient =>
      Ret (json_page 200
             (JObj {[ "dist-tags" := JObj {[ "latest" := JStr ("1.0.0" ++ lone_surrogate) ]};
                      "versions" := JObj lodash_versions ]}))
  | CdnClient => Ret (js_file "/* never requested */")
  end.

(** the Content-Type that a file response would carry can be sent as a
    header: each of its characters is within latin-1 *)
Definition sendable (r : http_response) : bool :=
  Codec.encodable Codec.Latin1 (default "text/plain" (header_content_type r)).

(** an origin that gives no file: no answer at all, a status other than 200,
    or a 200 whose Content-Type cannot be sent *)
Definition origin_fails (net : client -> string -> result http_response)
    (url : string) : bool :=
  match net CdnClient url with
  | Ret r => negb (status_code r =? 200) || negb (sendable r)
  | Raise _ => true
  end.

Definition headers_of (r : response) : list (string * string) :=
  match r with
  | Response _ _ _ headers => headers
  | _ => []
  end.

(** ** Further definitions used by the properties *)

(** every character of [s] belongs to the set [chars] *)
Fixpoint only_chars (chars s : string) : bool :=
  match s with
  | EmptyString => true
  | String c s' => in_chars c chars && only_chars chars s'
  end.

(** The URL forms that the landing page of the gateway lists, one per
    shape, without the leading [/] that the framework removes:
    [{package_name}], [{package_name}/], [{package_name}@{version}],
    [{package_name}@{version}/], [{package_name}@{version}/{file_path}]. *)
Definition url_of (shape : RequestShape) : string :=
  match shape with
  | PackageEntry p => p
  | PackageDirLatest p => p ++ "/"
  | PackageEntryVersioned p v => p ++ "@" ++ v
  | PackageDirVersioned p v => p ++ "@" ++ v ++ "/"
  | PackageFileVersioned p v f => p ++ "@" ++ v ++ "/" ++ f
  | Unmatched => ""
  end.

(** The shapes [classify] can return: no [@] in the package, no [/] at the
    end of a package or of a directory version, no [/] in the version of an
    entry or of a file, and a file path that is not empty and does not end
    with [/]. *)
Definition well_formed (shape : RequestShape) : bool :=
  match shape with
  | PackageEntry p | PackageDirLatest p =>
      negb (contains "@" p) && negb (endswith p "/")
  | PackageEntryVersioned p v =>
      negb (contains "@" p) && negb (contains "/" v)
  | PackageDirVersioned p v =>
      negb (contains "@" p) && negb (endswith v "/")
  | PackageFileVersioned p v f =>
      negb (contains "@" p) && negb (contains "/" v)
      && negb (bool_decide (f = "")) && negb (endswith f "/")
  | Unmatched => false
  end.

(** a version whose only entry field is not a string *)
Definition manifest_null_jsdelivr : gmap string json :=
  {[ "jsdelivr" := JNull; "main" := JStr "index.js" ]}.

(** [exports] written as a bare string *)
Definition manifest_exports_string : gmap string json :=
  {[ "exports" := JStr "./esm/index.mjs"; "main" := JStr "./lib/index.js" ]}.

(** [exports["."]] with a [default] *)
Definition manifest_exports_default : gmap string json :=
  {[ "exports" := JObj {[ "." := JObj {[ "default" := JStr "./dist/vue.runtime.esm-bundler.js" ]} ]};
     "main" := JStr "index.js" ]}.

(** [exports["."]] written as a string *)
Definition manifest_exports_dot_string : gmap string json :=
  {[ "exports" := JObj {[ "." := JStr "./esm/index.mjs" ]}; "main" := JStr "index.js" ]}.

(** [main] names the package directory itself *)
Definition manifest_main_is_dir : gmap string json :=
  {[ "main" := JStr "./" ]}.

(** no server can be reached *)
Definition net_offline (c : client) (url : string) : result http_response :=
  Raise (RequestError "All connection attempts failed").

(** a manifest without dist-tags *)
Definition net_no_latest (c : client) (url : string) : result http_response :=
  match c with
  | RegistryClient => Ret (json_page 200 (JObj {[ "versions" := JObj lodash_versions ]}))
  | CdnClient => net_jsdelivr_up c url
  end.

Definition left_pad_manifest : gmap string json :=
  {[ "dist-tags" := JObj {[ "latest" := JStr "1.3.0" ]};
     "versions" := JObj {[ "1.3.0" := JObj manifest_no_entry;
                            "1.2.9" := JObj manifest_null_jsdelivr ]} ]}.

(** a package whose versions give no usable entry *)
Definition net_left_pad (c : client) (url : string) : result http_response :=
  match c with
  | RegistryClient => Ret (json_page 200 (JObj left_pad_manifest))
  | CdnClient => Ret (js_file "/* never requested */")
  end.

(** * Properties *)

(** ** The entry resolver *)

Lemma lstrip_plain s : plain_start s = true -> lstrip "./" s = s.
Proof.
  destruct s as [|c s]; [reflexivity|]. cbn [plain_start lstrip].
  intros H. destruct (in_chars c "./"); [discriminate|reflexivity].
Qed.

(** On the paths a manifest usually holds, the two strippings agree. *)
Lemma lstrip_agrees_with_spec (entry rest : string) :
  plain_start rest = true ->
  entry = rest \/ entry = "./" ++ rest \/ entry = "/" ++ rest ->
  lstrip "./" entry = rest /\ strip_leading_spec entry = rest.
Proof.
  intros Hp [-> | [-> | ->]].
  - split; [by apply lstrip_plain|].
    destruct rest as [|c rest]; [reflexivity|].
    cbn in Hp. apply negb_true_iff, orb_false_iff in Hp as [Hdot Hsl].
    apply orb_false_iff in Hsl as [Hsl _].
    apply bool_decide_eq_false in Hdot, Hsl.
    unfold strip_leading_spec. cbn.
    rewrite !bool_decide_false by congruence. reflexivity.
  - change ("./" ++ rest) with (String "." (String "/" rest)).
    split; [cbn; by apply lstrip_plain | reflexivity].
  - change ("/" ++ rest) with (String "/" rest).
    split; [cbn; by apply lstrip_plain | reflexivity].
Qed.

(** Runs [resolve_entry_file] on a dict whose relevant lookups are known. *)
Ltac run_resolver :=
  unfold resolve_entry_file, entry_of_exports; cbn;
  repeat match goal with
         | H : _ !! _ = _ |- _ => rewrite H; clear H; cbn
         end;
  try reflexivity.

Section Resolver.

Variable m : gmap string json.

(** Step 1: a [jsdelivr] string wins over every other field. *)
Lemma resolve_jsdelivr (entry : string) :
  m !! "jsdelivr" = Some (JStr entry) ->
  resolve_entry_file (JObj m) = Ret (Some (lstrip "./" entry)).
Proof. intros H. run_resolver. Qed.

(** Step 3 alone: without [jsdelivr] and without [exports], [main] decides. *)
Lemma resolve_main_only (entry : string) :
  m !! "jsdelivr" = None -> m !! "exports" = None ->
  m !! "main" = Some (JStr entry) ->
  resolve_entry_file (JObj m) = Ret (Some (lstrip "./" entry)).
Proof. intros Hj He Hm. run_resolver. Qed.

(** Step 2 falls through when [exports["."]] is a dict without [default]. *)
Lemma resolve_exports_fallthrough (ex d : gmap string json) (entry : string) :
  m !! "jsdelivr" = None ->
  m !! "exports" = Some (JObj ex) ->
  ex !! "." = Some (JObj d) ->
  d !! "default" = None ->
  m !! "main" = Some (JStr entry) ->
  resolve_entry_file (JObj m) = Ret (Some (lstrip "./" entry)).
Proof. intros Hj He Hdot Hd Hm. run_resolver. Qed.

(** Step 4: no field, no entry. *)
Lemma resolve_nothing :
  m !! "jsdelivr" = None -> m !! "exports" = None -> m !! "main" = None ->
  resolve_entry_file (JObj m) = Ret None.
Proof. intros Hj He Hm. run_resolver. Qed.

End Resolver.

(** C1. When [jsdelivr] and [main] are both present the resolver answers from
    [jsdelivr], but it does not strip "a leading [./] or [/], nothing more":
    for the [jsdelivr] value [./.build/index.min.js] it returns
    [build/index.min.js], whereas removing the leading [./] alone gives
    [.build/index.min.js]. *)
Theorem jsdelivr_strip_removes_more :
  manifest_hidden_build !! "jsdelivr" = Some (JStr "./.build/index.min.js") /\
  manifest_hidden_build !! "main" = Some (JStr "index.js") /\
  resolve_entry_file (JObj manifest_hidden_build) = Ret (Some "build/index.min.js") /\
  strip_leading_spec "./.build/index.min.js" = ".build/index.min.js".
Proof. repeat split; vm_compute; reflexivity. Qed.

(** C5, as stated, fails when the manifest also has a [jsdelivr] field: step 1
    returns before [exports] and [main] are looked at. *)
Lemma exports_fallback_hidden_by_jsdelivr :
  manifest_exports_and_jsdelivr !! "exports" = Some (JObj exports_import_only) /\
  exports_import_only !! "." = Some (JObj {[ "import" := JStr "./esm/index.mjs" ]}) /\
  ({[ "import" := JStr "./esm/index.mjs" ]} : gmap string json) !! "default" = None /\
  manifest_exports_and_jsdelivr !! "main" = Some (JStr "index.js") /\
  resolve_entry_file (JObj manifest_exports_and_jsdelivr) = Ret (Some "dist/pkg.min.js") /\
  resolve_entry_file (JObj manifest_exports_and_jsdelivr)
    <> Ret (Some (strip_leading_spec "index.js")).
Proof. repeat split; vm_compute; try reflexivity; discriminate. Qed.

(** C5, amended. For a manifest without a [jsdelivr] field in which
    [exports["."]] is a dict that has no [default] key and [main] is a
    string, the resolver returns an entry, never [None]; and when [main] is a
    plain path, possibly behind one leading [./] or [/], that entry is [main]
    without the leading [./] or [/]. *)
Theorem exports_without_default_falls_back_to_main
    (m ex d : gmap string json) (entry : string) :
  m !! "jsdelivr" = None ->
  m !! "exports" = Some (JObj ex) ->
  ex !! "." = Some (JObj d) ->
  d !! "default" = None ->
  m !! "main" = Some (JStr entry) ->
  exists e,
    resolve_entry_file (JObj m) = Ret (Some e) /\
    forall rest, plain_start rest = true ->
      entry = rest \/ entry = "./" ++ rest \/ entry = "/" ++ rest ->
      e = rest /\ strip_leading_spec entry = rest.
Proof.
  intros Hj He Hdot Hd Hm. exists (lstrip "./" entry). split.
  - by apply (resolve_exports_fallthrough m ex d).
  - intros rest Hp Hform. by apply lstrip_agrees_with_spec.
Qed.

Lemma exports_without_default_falls_back_to_main_witness :
  exists e,
    resolve_entry_file (JObj manifest_exports_no_default) = Ret (Some e) /\
    forall rest, plain_start rest = true ->
      "./lib/index.js" = rest \/ "./lib/index.js" = "./" ++ rest
      \/ "./lib/index.js" = "/" ++ rest ->
      e = rest /\ strip_leading_spec "./lib/index.js" = rest.
Proof.
  apply (exports_without_default_falls_back_to_main
           manifest_exports_no_default exports_import_only
           {[ "import" := JStr "./esm/index.mjs" ]} "./lib/index.js");
    reflexivity.
Defined.

(** C6. A manifest with none of the fields [jsdelivr], [exports] and [main]
    resolves to [None], not to the empty string. *)
Theorem no_entry_field_resolves_to_none (m : gmap string json) :
  m !! "jsdelivr" = None -> m !! "exports" = None -> m !! "main" = None ->
  resolve_entry_file (JObj m) = Ret None /\
  resolve_entry_file (JObj m) <> Ret (Some "").
Proof.
  intros Hj He Hm. rewrite (resolve_nothing m Hj He Hm). split; [reflexivity|discriminate].
Qed.

Lemma no_entry_field_resolves_to_none_witness :
  resolve_entry_file (JObj manifest_no_entry) = Ret None /\
  resolve_entry_file (JObj manifest_no_entry) <> Ret (Some "").
Proof.
  apply (no_entry_field_resolves_to_none manifest_no_entry); reflexivity.
Defined.

(** ** Strings *)

Section StringFacts.

Lemma append_cons (c : ascii) (a b : string) : String c a ++ b = String c (a ++ b).
Proof. reflexivity. Qed.

Lemma append_empty (b : string) : "" ++ b = b.
Proof. reflexivity. Qed.

Lemma startswith_cons (c d : ascii) (s : string) :
  startswith (String c s) (String d "") = bool_decide (d = c).
Proof. unfold startswith. cbn. by case_bool_decide. Qed.

Lemma contains_cons (c d : ascii) (s : string) :
  contains (String d "") (String c s) = bool_decide (d = c) || contains (String d "") s.
Proof. cbn [contains]. by rewrite startswith_cons. Qed.

(** [contains] and [partition] find the same occurrence. *)
Lemma partition_is_Some (sep s : string) :
  is_Some (partition sep s) <-> contains sep s = true.
Proof.
  induction s as [|c s IH]; cbn [partition contains]; unfold startswith.
  - destruct (after_prefix sep ""); cbn.
    + split; eauto.
    + split; [intros [? ?]|]; discriminate.
  - destruct (after_prefix sep (String c s)); cbn; [split; eauto|].
    rewrite <- IH. destruct (partition sep s) as [[a b]|].
    + split; eauto.
    + split; intros [? ?]; discriminate.
Qed.

Lemma partition_None (sep s : string) :
  contains sep s = false -> partition sep s = None.
Proof.
  intros H. destruct (partition sep s) eqn:E; [|reflexivity].
  assert (contains sep s = true) by (apply partition_is_Some; eauto). congruence.
Qed.

(** The first occurrence of a one-character separator [c] in
    [a ++ c ++ b], when [a] has none, is the one written. *)
Lemma partition_first (c : ascii) (a b : string) :
  contains (String c "") a = false ->
  partition (String c "") (a ++ String c b) = Some (a, b).
Proof.
  induction a as [|x a IH]; intros H.
  - rewrite append_empty. cbn. by rewrite bool_decide_true.
  - rewrite contains_cons in H. apply orb_false_iff in H as [Hx Ha].
    rewrite append_cons. cbn [partition after_prefix]. rewrite Hx.
    by rewrite (IH Ha).
Qed.

(** Conversely every string that contains [c] is cut that way. *)
Lemma partition_inv (c : ascii) (s a b : string) :
  partition (String c "") s = Some (a, b) ->
  s = a ++ String c b /\ contains (String c "") a = false.
Proof.
  revert a b. induction s as [|x s IH]; intros a b; cbn [partition after_prefix].
  - discriminate.
  - case_bool_decide as Hx.
    + subst x. intros [= <- <-]. by rewrite append_empty.
    + destruct (partition (String c "") s) as [[a' b']|]; [|discriminate].
      intros [= <- <-]. destruct (IH a' b' eq_refl) as [-> Hc]. split.
      * by rewrite append_cons.
      * rewrite contains_cons, Hc. by rewrite bool_decide_false.
Qed.

Lemma endswith_cons (c d : ascii) (s : string) :
  endswith (String c s) (String d "") =
  (bool_decide (c = d) && bool_decide (s = "")) || endswith s (String d "").
Proof.
  cbn [endswith]. f_equal.
  repeat case_bool_decide; simplify_eq; try reflexivity; try congruence.
Qed.

Lemma endswith_app (d : ascii) (a s : string) :
  s <> "" -> endswith (a ++ s) (String d "") = endswith s (String d "").
Proof.
  intros Hs. induction a as [|x a IH]; [by rewrite append_empty|].
  rewrite append_cons, endswith_cons, IH.
  rewrite (bool_decide_false (a ++ s = "")), andb_false_r; [reflexivity|].
  destruct a; [by rewrite append_empty | by rewrite append_cons].
Qed.

(** A string that ends with [d] contains [d]. *)
Lemma endswith_contains (d : ascii) (s : string) :
  endswith s (String d "") = true -> contains (String d "") s = true.
Proof.
  induction s as [|c s IH]; [discriminate|].
  rewrite endswith_cons, contains_cons. intros H.
  apply orb_true_iff in H as [H|H].
  - apply andb_true_iff in H as [H _]. apply bool_decide_eq_true in H as ->.
    by rewrite bool_decide_true.
  - rewrite (IH H). apply orb_true_r.
Qed.

(** [rstrip] never reaches past a character that is not in its set. *)
Lemma rstrip_app (chars : string) (c : ascii) (a b : string) :
  in_chars c chars = false ->
  rstrip chars (a ++ String c b) = a ++ String c (rstrip chars b).
Proof.
  intros Hc. induction a as [|x a IH].
  - rewrite !append_empty. cbn [rstrip]. rewrite Hc. by destruct (rstrip chars b).
  - rewrite !append_cons. cbn [rstrip]. rewrite IH.
    destruct a; [rewrite append_empty | rewrite append_cons]; reflexivity.
Qed.

End StringFacts.

(** ** The request classifier *)

Section Classifier.

Lemma classify_without_at (path : string) :
  contains "@" path = false ->
  classify path =
    if endswith path "/" then PackageDirLatest (rstrip "/" path)
    else PackageEntry path.
Proof.
  intros H. unfold classify. rewrite H. cbn.
  by destruct (endswith path "/").
Qed.

Lemma contains_at_app (a b : string) :
  contains "@" a = false -> contains "@" (a ++ "@" ++ b) = true.
Proof.
  intros H. apply partition_is_Some. change ("@" ++ b) with (String "@" b).
  rewrite (partition_first "@" a b H). eauto.
Qed.

Lemma endswith_at_app (a b : string) :
  endswith (a ++ "@" ++ b) "/" = endswith b "/".
Proof.
  change ("@" ++ b) with (String "@" b).
  rewrite endswith_app by discriminate. by rewrite endswith_cons.
Qed.

(** The three cases of a path with an [@], in terms of the text [a]
    before the first [@] and the text [b] after it. *)
Lemma classify_with_at (a b : string) :
  contains "@" a = false ->
  classify (a ++ "@" ++ b) =
    if negb (contains "/" b) then PackageEntryVersioned a b
    else if endswith b "/" then PackageDirVersioned a (rstrip "/" b)
    else match partition "/" b with
         | Some (version, file_path) => PackageFileVersioned a version file_path
         | None => Unmatched
         end.
Proof.
  intros H. unfold classify, classify_file.
  rewrite (contains_at_app a b H), endswith_at_app. cbn [negb andb].
  change ("@" ++ b) with (String "@" b).
  rewrite (rstrip_app "/" "@" a b) by reflexivity.
  unfold split1. rewrite !(partition_first "@" a) by exact H. cbn.
  destruct (contains "/" b) eqn:Hs; cbn; [|reflexivity].
  destruct (endswith b "/"); [reflexivity|].
  apply partition_is_Some in Hs as [[v f] ->]. reflexivity.
Qed.

(** Every path with an [@] is of that form. *)
Lemma path_with_at (path : string) :
  contains "@" path = true ->
  exists a b, path = a ++ "@" ++ b /\ contains "@" a = false /\ after_at path = b.
Proof.
  intros H. apply partition_is_Some in H as [[a b] Hp].
  exists a, b. unfold after_at. rewrite Hp.
  apply partition_inv in Hp as [-> Ha]. done.
Qed.

Lemma classify_kind (path : string) :
  kind_of (classify path) =
    if contains "@" path then
      if negb (contains "/" (after_at path)) then KPackageEntryVersioned
      else if endswith path "/" then KPackageDirVersioned
      else KPackageFileVersioned
    else if endswith path "/" then KPackageDirLatest else KPackageEntry.
Proof.
  destruct (contains "@" path) eqn:H.
  - destruct (path_with_at path H) as (a & b & -> & Ha & ->).
    rewrite (classify_with_at a b Ha), endswith_at_app.
    destruct (contains "/" b) eqn:Hs; cbn; [|reflexivity].
    destruct (endswith b "/"); [reflexivity|].
    apply partition_is_Some in Hs as [[v f] ->]. reflexivity.
  - rewrite (classify_without_at path H). by destruct (endswith path "/").
Qed.

(** The cases a path can take, by the presence of an [@]. *)
Lemma classify_kind_by_at (path : string) :
  In (kind_of (classify path))
     (if contains "@" path
      then [KPackageEntryVersioned; KPackageDirVersioned; KPackageFileVersioned]
      else [KPackageEntry; KPackageDirLatest]).
Proof.
  rewrite classify_kind.
  destruct (contains "@" path), (contains "/" (after_at path)),
           (endswith path "/"); cbn; tauto.
Qed.

(** A trailing [/] behind an [@] is a [/] after the [@]. *)
Lemma trailing_slash_after_at (path : string) :
  contains "@" path = true -> endswith path "/" = true ->
  contains "/" (after_at path) = true.
Proof.
  intros H He. destruct (path_with_at path H) as (a & b & -> & Ha & ->).
  rewrite endswith_at_app in He. by apply endswith_contains.
Qed.

End Classifier.

(** C3, as stated, fails on the paths it names: the text before the first
    [@] of a scoped name is empty, so the package component is the empty
    string and the scope is read as a version. *)
Lemma scoped_name_loses_its_scope :
  classify "@vue/shared" = PackageFileVersioned "" "vue" "shared" /\
  classify "@vue/shared@1.0.0" = PackageFileVersioned "" "vue" "shared@1.0.0" /\
  package_of (classify "@vue/shared") <> Some "@vue/shared" /\
  package_of (classify "@vue/shared@1.0.0") <> Some "@vue/shared".
Proof. repeat split; vm_compute; try reflexivity; discriminate. Qed.

(** C3, amended. The [@] split is always performed on the first occurrence
    of [@]: the package component of a path is the text before its first
    [@].  A leading [@scope/] is not treated apart: for every path that
    begins with [@] the package component is the empty string, and the text
    after that [@] is the version of an entry request when it has no [/],
    the version of a directory request (less its trailing slashes) when it
    ends with [/], and otherwise, as for the scoped names [@scope/name] and
    [@scope/name@1.0.0], the version [scope] and the file path that follows
    the first [/]. *)
Theorem package_is_text_before_first_at (package_name rest scope name : string) :
  (contains "@" package_name = false ->
   package_of (classify (package_name ++ "@" ++ rest)) = Some package_name) /\
  package_of (classify ("@" ++ rest)) = Some "" /\
  (contains "/" rest = false ->
   classify ("@" ++ rest) = PackageEntryVersioned "" rest) /\
  (endswith rest "/" = true ->
   classify ("@" ++ rest) = PackageDirVersioned "" (rstrip "/" rest)) /\
  (contains "/" scope = false -> name <> "" -> endswith name "/" = false ->
   classify ("@" ++ scope ++ "/" ++ name) = PackageFileVersioned "" scope name).
Proof.
  assert (Hgen : forall a b, contains "@" a = false ->
                             package_of (classify (a ++ "@" ++ b)) = Some a).
  { intros a b Ha. rewrite (classify_with_at a b Ha).
    destruct (contains "/" b) eqn:Hs; cbn; [|reflexivity].
    destruct (endswith b "/"); [reflexivity|].
    apply partition_is_Some in Hs as [[v f] ->]. reflexivity. }
  assert (Hat : forall b, classify ("@" ++ b) = classify ("" ++ "@" ++ b))
    by reflexivity.
  split; [by apply Hgen|]. split; [rewrite Hat; by apply Hgen|].
  split; [|split].
  - intros Hs. rewrite Hat, (classify_with_at "" rest) by reflexivity.
    by rewrite Hs.
  - intros He. rewrite Hat, (classify_with_at "" rest) by reflexivity.
    by rewrite (endswith_contains "/" rest He), He.
  - intros Hsc Hne He.
    rewrite Hat, (classify_with_at "" (scope ++ "/" ++ name)) by reflexivity.
    change ("/" ++ name) with (String "/" name).
    pose proof (partition_first "/" scope name Hsc) as Hp.
    assert (Hs : contains "/" (scope ++ String "/" name) = true)
      by (apply partition_is_Some; rewrite Hp; eauto).
    rewrite Hs, Hp. cbn [negb].
    rewrite endswith_app by discriminate. rewrite endswith_cons, He.
    by rewrite (bool_decide_false (name = "")), andb_false_r.
Qed.

Lemma package_is_text_before_first_at_witness :
  package_of (classify ("lodash" ++ "@" ++ "vue")) = Some "lodash" /\
  package_of (classify ("@" ++ "vue")) = Some "" /\
  classify ("@" ++ "vue") = PackageEntryVersioned "" "vue" /\
  classify ("@" ++ "vue/shared/") = PackageDirVersioned "" (rstrip "/" "vue/shared/") /\
  classify ("@" ++ "vue" ++ "/" ++ "shared@1.0.0")
    = PackageFileVersioned "" "vue" "shared@1.0.0".
Proof.
  split; [|split; [|split; [|split]]].
  - apply (proj1 (package_is_text_before_first_at "lodash" "vue" "vue" "shared@1.0.0")).
    reflexivity.
  - apply (proj1 (proj2 (package_is_text_before_first_at "lodash" "vue" "vue"
                           "shared@1.0.0"))).
  - apply (proj1 (proj2 (proj2 (package_is_text_before_first_at "lodash" "vue" "vue"
                                  "shared@1.0.0")))).
    reflexivity.
  - apply (proj1 (proj2 (proj2 (proj2 (package_is_text_before_first_at "lodash"
                                         "vue/shared/" "vue" "shared@1.0.0"))))).
    reflexivity.
  - apply (proj2 (proj2 (proj2 (proj2 (package_is_text_before_first_at "lodash" "vue"
                                         "vue" "shared@1.0.0"))))).
    + reflexivity.
    + discriminate.
    + reflexivity.
Defined.

(** C4. Every path matches exactly one row of the table of shapes, the one
    [classify] returns; and the five sample paths are classified as the
    specification says. *)
Theorem classifier_complete :
  (forall path, exists k,
      kind_of (classify path) = k /\
      forall k', pattern k' path = true <-> k' = k) /\
  classify "lodash" = PackageEntry "lodash" /\
  classify "lodash/" = PackageDirLatest "lodash" /\
  classify "lodash@4.17.21" = PackageEntryVersioned "lodash" "4.17.21" /\
  classify "lodash@4.17.21/" = PackageDirVersioned "lodash" "4.17.21" /\
  classify "lodash@4.17.21/dist/lodash.js"
    = PackageFileVersioned "lodash" "4.17.21" "dist/lodash.js".
Proof.
  split; [|repeat split; vm_compute; reflexivity].
  intros path. eexists. split; [reflexivity|]. intros k'.
  rewrite classify_kind. generalize (trailing_slash_after_at path).
  destruct k'; cbn [pattern];
    destruct (contains "@" path), (contains "/" (after_at path)),
             (endswith path "/");
    cbn; intros Ht; split; intros Hk; try done;
    specialize (Ht eq_refl eq_refl); discriminate.
Qed.

(** C10. The closing 404 of [handle_request] is never reached: a path
    without [@] is an entry or a latest-directory request, a path with [@]
    is one of the three versioned requests, no path is [Unmatched], and so
    every request is answered by one of the five handlers. *)
Theorem unmatched_is_unreachable
    (net : client -> string -> result http_response) (py_repr : json -> string)
    (full_path : string) :
  classify full_path <> Unmatched /\
  In (kind_of (classify full_path))
     (if contains "@" full_path
      then [KPackageEntryVersioned; KPackageDirVersioned; KPackageFileVersioned]
      else [KPackageEntry; KPackageDirLatest]) /\
  ((exists p v, handle_request net py_repr full_path = get_package_entry net py_repr p v) \/
   (exists p, handle_request net py_repr full_path = redirect_to_latest net py_repr p) \/
   (exists p v, handle_request net py_repr full_path
                = get_package_directory net py_repr p v) \/
   (exists p v f, handle_request net py_repr full_path = get_package_file net p v f)).
Proof.
  pose proof (classify_kind_by_at full_path) as Hin.
  assert (Hu : classify full_path <> Unmatched).
  { intros Hu. rewrite Hu in Hin. destruct (contains "@" full_path); cbn in Hin;
      intuition discriminate. }
  split; [exact Hu | split; [exact Hin|]].
  unfold handle_request.
  destruct (classify full_path) as [p|p|p v|p v|p v f|] eqn:Hc.
  - left. by exists p, None.
  - right; left. by exists p.
  - left. by exists p, (Some v).
  - right; right; left. by exists p, v.
  - right; right; right. by exists p, v, f.
  - by destruct Hu.
Qed.

(** ** The handlers *)

(** the scrutinee that a nest of [match] and [if] examines first *)
Ltac head_scrutinee t :=
  lazymatch t with
  | match ?x with _ => _ end => head_scrutinee x
  | (match ?x with _ => _ end) _ => head_scrutinee x
  | _ => t
  end.

(** Case analysis of a computation [H : c = r], one examined value at a
    time. *)
Ltac crack H :=
  repeat (lazymatch type of H with
          | match ?x with _ => _ end = _ =>
              let y := head_scrutinee x in destruct y eqn:?
          | (match ?x with _ => _ end) _ = _ =>
              let y := head_scrutinee x in destruct y eqn:?
          end; cbv beta in H).

Ltac io_unfold :=
  unfold run, get_package_entry, get_package_file, cdn_urls, fetch_first,
    try_origin, io_try, io_lift, http_get,
    mbind, mret, io_mbind, io_mret, io_bind, io_ret; cbn.

Section Handlers.

Variable net : client -> string -> result http_response.
Variable py_repr : json -> string.

Lemma encode_header_names :
  Codec.encode Codec.Latin1 "Content-Type" = Ret tt /\
  Codec.encode Codec.Latin1 "Access-Control-Allow-Origin" = Ret tt /\
  Codec.encode Codec.Latin1 "*" = Ret tt.
Proof. repeat split; vm_compute; reflexivity. Qed.

(** The headers of a file response are accepted exactly when its
    Content-Type is within latin-1. *)
Lemma init_headers_file (r : http_response) :
  init_headers [("Content-Type", default "text/plain" (header_content_type r));
                ("Access-Control-Allow-Origin", "*")]
  = Codec.encode Codec.Latin1 (default "text/plain" (header_content_type r)).
Proof.
  destruct encode_header_names as (H1 & H2 & H3).
  cbn [init_headers]. rewrite H1, H2, H3. unfold mbind, result_bind.
  generalize (Codec.encode Codec.Latin1 (default "text/plain" (header_content_type r))).
  by intros [[]|e].
Qed.

Lemma try_origin_200 (url : string) (r : http_response) (log : list call) :
  net CdnClient url = Ret r -> status_code r = 200 -> sendable r = true ->
  try_origin net url log
    = (Ret (Some (file_response r)), (log ++ [Get CdnClient url])%list).
Proof.
  intros Hn Hs Hh. unfold sendable, Codec.encodable in Hh.
  unfold try_origin, io_try, io_lift, http_get, mbind, mret, io_mbind, io_mret,
    io_bind, io_ret.
  rewrite Hn, Hs, init_headers_file. cbn.
  by destruct (Codec.encode Codec.Latin1
                 (default "text/plain" (header_content_type r))).
Qed.

Lemma try_origin_fails (url : string) (log : list call) :
  origin_fails net url = true ->
  try_origin net url log = (Ret None, (log ++ [Get CdnClient url])%list).
Proof.
  unfold origin_fails, sendable, Codec.encodable. intros Hf.
  unfold try_origin, io_try, io_lift, http_get, mbind, mret, io_mbind, io_mret,
    io_bind, io_ret.
  destruct (net CdnClient url) as [r|e]; [|reflexivity].
  rewrite init_headers_file.
  destruct (status_code r =? 200); [|reflexivity].
  by destruct (Codec.encode Codec.Latin1
                 (default "text/plain" (header_content_type r))).
Qed.

(** An origin fails, or else it answers a 200 that can be sent. *)
Lemma origin_answers (url : string) :
  origin_fails net url = false ->
  exists r, net CdnClient url = Ret r /\ status_code r = 200 /\ sendable r = true.
Proof.
  unfold origin_fails. destruct (net CdnClient url) as [r|e]; [|discriminate].
  intros Hf. apply orb_false_iff in Hf as [Hs Hh].
  apply negb_false_iff in Hs, Hh. apply Z.eqb_eq in Hs. by exists r.
Qed.

(** The walk over a list of origins never raises. *)
Lemma fetch_first_returns (urls : list string) (log : list call) :
  exists r log', fetch_first net urls log = (Ret r, log').
Proof.
  revert log. induction urls as [|u urls IH]; intros log.
  - eexists _, _. reflexivity.
  - cbn [fetch_first]. unfold mbind, io_mbind, io_bind.
    destruct (origin_fails net u) eqn:Hf.
    + rewrite (try_origin_fails u log Hf). apply IH.
    + destruct (origin_answers u Hf) as (r & Hn & Hs & Hh).
      rewrite (try_origin_200 u r log Hn Hs Hh). eexists _, _. reflexivity.
Qed.

(** The registry request of the entry handler, and what follows a 404. *)
Lemma entry_package_not_found (package_name : string) (version : option string)
    (r : http_response) :
  net RegistryClient (NPM_REGISTRY ++ "/" ++ package_name) = Ret r ->
  status_code r = 404 ->
  run (get_package_entry net py_repr package_name version)
    = (Ret (Response "404 Package Not Found" 404 None []),
       [Get RegistryClient (NPM_REGISTRY ++ "/" ++ package_name)]).
Proof.
  intros Hn Hs. io_unfold. rewrite Hn, Hs. reflexivity.
Qed.

(** Whatever goes wrong before the CDN is asked ends in a 500 that quotes
    the exception. *)
Lemma entry_body_not_json (package_name : string) (version : option string)
    (r : http_response) (e : exn) :
  net RegistryClient (NPM_REGISTRY ++ "/" ++ package_name) = Ret r ->
  status_code r <> 404 ->
  json_body r = Raise e ->
  run (get_package_entry net py_repr package_name version)
    = (Ret (Response ("Error: " ++ str_exn py_repr e) 500 None []),
       [Get RegistryClient (NPM_REGISTRY ++ "/" ++ package_name)]).
Proof.
  intros Hn Hs Hj. io_unfold. rewrite Hn. apply Z.eqb_neq in Hs. rewrite Hs, Hj.
  reflexivity.
Qed.

Lemma entry_body_not_object (package_name : string) (version : option string)
    (r : http_response) (body : json) :
  net RegistryClient (NPM_REGISTRY ++ "/" ++ package_name) = Ret r ->
  status_code r <> 404 ->
  json_body r = Ret body ->
  Py.type_name body <> "dict" ->
  run (get_package_entry net py_repr package_name version)
    = (Ret (Response ("Error: '" ++ Py.type_name body
                      ++ "' object has no attribute 'get'") 500 None []),
       [Get RegistryClient (NPM_REGISTRY ++ "/" ++ package_name)]).
Proof.
  intros Hn Hs Hj Ht. io_unfold. rewrite Hn. apply Z.eqb_neq in Hs. rewrite Hs, Hj.
  destruct version as [v|]; cbn; [destruct (bool_decide (v = "")); cbn|];
    destruct body; cbn; try reflexivity; by destruct Ht.
Qed.


(** The content fetcher depends on the CDNs only. *)
Lemma get_package_file_same_cdn (net' : client -> string -> result http_response)
    (package_name version file_path : string) (log : list call) :
  (forall url, net' CdnClient url = net CdnClient url) ->
  get_package_file net' package_name version file_path log
  = get_package_file net package_name version file_path log.
Proof.
  intros Hcdn.
  unfold get_package_file, cdn_urls, fetch_first, try_origin, io_try, io_lift,
    http_get, mbind, mret, io_mbind, io_mret, io_bind, io_ret.
  by rewrite !Hcdn.
Qed.

(** The entry handler looks at the status of the registry response only to
    tell 404 from the rest. *)
Lemma entry_status_not_inspected (net' : client -> string -> result http_response)
    (package_name : string) (version : option string) (r r' : http_response) :
  net RegistryClient (NPM_REGISTRY ++ "/" ++ package_name) = Ret r ->
  net' RegistryClient (NPM_REGISTRY ++ "/" ++ package_name) = Ret r' ->
  status_code r <> 404 -> status_code r' <> 404 ->
  json_body r' = json_body r ->
  (forall url, net' CdnClient url = net CdnClient url) ->
  run (get_package_entry net' py_repr package_name version)
  = run (get_package_entry net py_repr package_name version).
Proof.
  intros Hn Hn' Hs Hs' Hj Hcdn. apply Z.eqb_neq in Hs, Hs'.
  unfold run, get_package_entry, io_try, io_lift, http_get,
    mbind, mret, io_mbind, io_mret, io_bind, io_ret.
  rewrite Hn, Hn', Hs, Hs', Hj. cbv beta iota.
  repeat first
    [ rewrite (get_package_file_same_cdn net' _ _ _ _ Hcdn)
    | reflexivity
    | lazymatch goal with
      | |- match ?x with _ => _ end = _ =>
          let y := head_scrutinee x in destruct y eqn:?
      | |- (match ?x with _ => _ end) _ = _ =>
          let y := head_scrutinee x in destruct y eqn:?
      end; cbv beta iota ].
Qed.

End Handlers.

(** C7, as stated, fails when the first 200 carries a Content-Type that
    cannot be sent: the response is built inside the [try] of the loop, the
    header does not encode as latin-1, the exception is swallowed, and the
    file is taken from unpkg although jsDelivr returned 200. *)
Lemma first_200_can_be_passed_over :
  net_jsdelivr_unsendable CdnClient "https://cdn.jsdelivr.net/npm/lodash@4.17.21/lodash.js"
    = Ret (js_file_named "/* lodash, from jsDelivr */") /\
  status_code (js_file_named "/* lodash, from jsDelivr */") = 200 /\
  run (get_package_file net_jsdelivr_unsendable "lodash" "4.17.21" "lodash.js")
    = (Ret (file_response (js_file "/* lodash, from unpkg */")),
       [Get CdnClient "https://cdn.jsdelivr.net/npm/lodash@4.17.21/lodash.js";
        Get CdnClient "https://unpkg.com/lodash@4.17.21/lodash.js"]) /\
  body_of (file_response (js_file "/* lodash, from unpkg */"))
    <> content (js_file_named "/* lodash, from jsDelivr */").
Proof. repeat split; vm_compute; try reflexivity; discriminate. Qed.

(** C7, amended. [get_package_file] asks jsDelivr, then unpkg.  The first
    origin that answers 200 with a Content-Type that can be sent as a header
    (all its characters within latin-1; [text/plain] when the header is
    absent) gives the response: its body, that Content-Type and the header
    [Access-Control-Allow-Origin: *].  An origin that raises, answers
    another status, or answers a 200 whose Content-Type cannot be sent, is
    passed over; when both are passed over the response is the 404
    "File Not Found". *)
Theorem cdn_fallback (net : client -> string -> result http_response)
    (package_name version file_path : string) :
  let jsdelivr :=
    JSDELIVR_CDN ++ "/" ++ package_name ++ "@" ++ version ++ "/" ++ file_path in
  let unpkg :=
    UNPKG_CDN ++ "/" ++ package_name ++ "@" ++ version ++ "/" ++ file_path in
  let fetched := run (get_package_file net package_name version file_path) in
  (forall r, net CdnClient jsdelivr = Ret r -> status_code r = 200 ->
     sendable r = true ->
     fetched = (Ret (file_response r), [Get CdnClient jsdelivr])) /\
  (forall r, origin_fails net jsdelivr = true ->
     net CdnClient unpkg = Ret r -> status_code r = 200 -> sendable r = true ->
     fetched = (Ret (file_response r), [Get CdnClient jsdelivr; Get CdnClient unpkg])) /\
  (origin_fails net jsdelivr = true -> origin_fails net unpkg = true ->
     fetched = (Ret (Response "404 File Not Found" 404 None []),
                [Get CdnClient jsdelivr; Get CdnClient unpkg])) /\
  (forall url,
     origin_fails net url = true <->
     (exists e, net CdnClient url = Raise e) \/
     (exists r, net CdnClient url = Ret r /\
                (status_code r <> 200 \/ sendable r = false))) /\
  (forall r, status_of (file_response r) = 200 /\
             body_of (file_response r) = content r /\
             headers_of (file_response r) =
               [("Content-Type", default "text/plain" (header_content_type r));
                ("Access-Control-Allow-Origin", "*")]).
Proof.
  intros jsdelivr unpkg fetched. subst fetched.
  unfold run, get_package_file, cdn_urls. fold jsdelivr unpkg.
  cbn [fetch_first]. unfold mbind, io_mbind, io_bind.
  split; [|split; [|split; [|split]]].
  - intros r Hn Hs Hh. by rewrite (try_origin_200 net jsdelivr r [] Hn Hs Hh).
  - intros r Hf Hn Hs Hh. rewrite (try_origin_fails net jsdelivr [] Hf).
    by rewrite (try_origin_200 net unpkg r _ Hn Hs Hh).
  - intros Hf1 Hf2. rewrite (try_origin_fails net jsdelivr [] Hf1).
    by rewrite (try_origin_fails net unpkg _ Hf2).
  - intros url. unfold origin_fails. destruct (net CdnClient url) as [r|e].
    + rewrite orb_true_iff, !negb_true_iff, Z.eqb_neq. split.
      * intros H. right. by exists r.
      * intros [[e [=]] | (r' & [= <-] & H)]. exact H.
    + split; [intros _; left; by exists e | reflexivity].
  - intros r. by repeat split.
Qed.

Lemma cdn_fallback_witness :
  run (get_package_file net_jsdelivr_up "lodash" "4.17.21" "lodash.js")
    = (Ret (file_response (js_file "/* lodash */")),
       [Get CdnClient "https://cdn.jsdelivr.net/npm/lodash@4.17.21/lodash.js"]) /\
  run (get_package_file net_unpkg_only "lodash" "4.17.21" "lodash.js")
    = (Ret (file_response (js_file "/* lodash */")),
       [Get CdnClient "https://cdn.jsdelivr.net/npm/lodash@4.17.21/lodash.js";
        Get CdnClient "https://unpkg.com/lodash@4.17.21/lodash.js"]) /\
  run (get_package_file net_jsdelivr_unsendable "lodash" "4.17.21" "lodash.js")
    = (Ret (file_response (js_file "/* lodash, from unpkg */")),
       [Get CdnClient "https://cdn.jsdelivr.net/npm/lodash@4.17.21/lodash.js";
        Get CdnClient "https://unpkg.com/lodash@4.17.21/lodash.js"]) /\
  run (get_package_file net_cdn_down "lodash" "4.17.21" "lodash.js")
    = (Ret (Response "404 File Not Found" 404 None []),
       [Get CdnClient "https://cdn.jsdelivr.net/npm/lodash@4.17.21/lodash.js";
        Get CdnClient "https://unpkg.com/lodash@4.17.21/lodash.js"]).
Proof.
  split; [|split; [|split]].
  - apply (proj1 (cdn_fallback net_jsdelivr_up "lodash" "4.17.21" "lodash.js")
             (js_file "/* lodash */")); reflexivity.
  - apply (proj1 (proj2 (cdn_fallback net_unpkg_only "lodash" "4.17.21" "lodash.js"))
             (js_file "/* lodash */")); reflexivity.
  - apply (proj1 (proj2 (cdn_fallback net_jsdelivr_unsendable "lodash" "4.17.21"
                           "lodash.js"))
             (js_file "/* lodash, from unpkg */")); reflexivity.
  - apply (proj1 (proj2 (proj2 (cdn_fallback net_cdn_down "lodash" "4.17.21" "lodash.js"))));
      reflexivity.
Defined.

(** C9. When the registry answers the manifest request with a 404, the entry
    handler responds 404 and its only request is the one to the registry:
    no CDN is asked. *)
Theorem unknown_package_no_cdn_call
    (net : client -> string -> result http_response) (py_repr : json -> string)
    (package_name : string) (version : option string) (r : http_response) :
  net RegistryClient (NPM_REGISTRY ++ "/" ++ package_name) = Ret r ->
  status_code r = 404 ->
  exists resp log,
    run (get_package_entry net py_repr package_name version) = (Ret resp, log) /\
    status_of resp = 404 /\
    body_of resp = "404 Package Not Found" /\
    log = [Get RegistryClient (NPM_REGISTRY ++ "/" ++ package_name)] /\
    filter is_cdn_call log = [].
Proof.
  intros Hn Hs. eexists _, _. split.
  - by apply entry_package_not_found with (r := r).
  - repeat split.
Qed.

Lemma unknown_package_no_cdn_call_witness :
  exists resp log,
    run (get_package_entry net_unknown_package sample_repr "doesnotexist123" None)
      = (Ret resp, log) /\
    status_of resp = 404 /\
    body_of resp = "404 Package Not Found" /\
    log = [Get RegistryClient (NPM_REGISTRY ++ "/" ++ "doesnotexist123")] /\
    filter is_cdn_call log = [].
Proof.
  apply (unknown_package_no_cdn_call net_unknown_package sample_repr
           "doesnotexist123" None
           (json_page 404 (JObj {[ "error" := JStr "Not found" ]})));
    reflexivity.
Defined.

(** C2, as stated, fails when the failing registry sends a JSON body: the
    status 500 is not looked at, the body is read as a manifest, and the
    missing [versions] ends in a 404. *)
Lemma registry_500_with_json_is_not_a_500 :
  net_registry_500_json RegistryClient (NPM_REGISTRY ++ "/" ++ "lodash")
    = Ret (json_page 500 (JObj {[ "error" := JStr "Internal Server Error" ]})) /\
  run (get_package_entry net_registry_500_json sample_repr "lodash" None)
    = (Ret (Response "404 Version None Not Found" 404 None []),
       [Get RegistryClient "https://registry.npmjs.org/lodash"]) /\
  status_of (Response "404 Version None Not Found" 404 None []) <> 500.
Proof. repeat split; vm_compute; try reflexivity; discriminate. Qed.

(** C2, amended. For every registry response to the manifest fetch whose
    status is not 404 (500, 502, 503, and also 200) and whose body is not
    valid JSON, or is JSON but not an object, the entry handler responds 500
    with a body that quotes the cause, and asks no CDN.  The status is not
    inspected otherwise: whatever the body, the handler answers exactly as
    it does when the registry sends the same body with any other status
    than 404, so a body that is a JSON object is read as a manifest. *)
Theorem registry_failure_without_manifest
    (net : client -> string -> result http_response) (py_repr : json -> string)
    (package_name : string) (version : option string) (r : http_response) :
  net RegistryClient (NPM_REGISTRY ++ "/" ++ package_name) = Ret r ->
  status_code r <> 404 ->
  let handled := run (get_package_entry net py_repr package_name version) in
  let registry_only := [Get RegistryClient (NPM_REGISTRY ++ "/" ++ package_name)] in
  (forall cause, json_body r = Raise cause ->
     handled = (Ret (Response ("Error: " ++ str_exn py_repr cause) 500 None []),
                registry_only)) /\
  (forall body, json_body r = Ret body -> Py.type_name body <> "dict" ->
     handled = (Ret (Response ("Error: '" ++ Py.type_name body
                               ++ "' object has no attribute 'get'") 500 None []),
                registry_only)) /\
  (forall (net' : client -> string -> result http_response) (r' : http_response),
     net' RegistryClient (NPM_REGISTRY ++ "/" ++ package_name) = Ret r' ->
     status_code r' <> 404 ->
     json_body r' = json_body r ->
     (forall url, net' CdnClient url = net CdnClient url) ->
     run (get_package_entry net' py_repr package_name version) = handled).
Proof.
  intros Hn Hs handled registry_only. split; [|split].
  - intros cause Hj. by apply entry_body_not_json with (r := r).
  - intros body Hj Ht. by apply entry_body_not_object with (r := r).
  - intros net' r' Hn' Hs' Hj Hcdn.
    by apply entry_status_not_inspected with (r := r) (r' := r').
Qed.

Lemma registry_failure_without_manifest_witness :
  run (get_package_entry net_registry_502_html sample_repr "lodash" (Some "4.17.21"))
    = (Ret (Response
              ("Error: " ++ str_exn sample_repr
                 (DecodeError "Expecting value: line 1 column 1 (char 0)"))
              500 None []),
       [Get RegistryClient (NPM_REGISTRY ++ "/" ++ "lodash")]) /\
  run (get_package_entry net_registry_503_string sample_repr "lodash" None)
    = (Ret (Response
              ("Error: '" ++ Py.type_name (JStr "Service Unavailable")
               ++ "' object has no attribute 'get'")
              500 None []),
       [Get RegistryClient (NPM_REGISTRY ++ "/" ++ "lodash")]) /\
  run (get_package_entry net_registry_200_json sample_repr "lodash" None)
    = run (get_package_entry net_registry_500_json sample_repr "lodash" None).
Proof.
  split; [|split].
  - apply (proj1 (registry_failure_without_manifest net_registry_502_html sample_repr
                    "lodash" (Some "4.17.21") (error_page 502) eq_refl
                    ltac:(discriminate))
             (DecodeError "Expecting value: line 1 column 1 (char 0)")).
    reflexivity.
  - apply (proj1 (proj2 (registry_failure_without_manifest net_registry_503_string
                    sample_repr "lodash" None
                    (json_page 503 (JStr "Service Unavailable")) eq_refl
                    ltac:(discriminate)))
             (JStr "Service Unavailable")).
    + reflexivity.
    + discriminate.
  - apply (proj2 (proj2 (registry_failure_without_manifest net_registry_500_json
                    sample_repr "lodash" None
                    (json_page 500 (JObj {[ "error" := JStr "Internal Server Error" ]}))
                    eq_refl ltac:(discriminate)))
             net_registry_200_json
             (json_page 200 (JObj {[ "error" := JStr "Internal Server Error" ]}))).
    + reflexivity.
    + discriminate.
    + reflexivity.
    + reflexivity.
Defined.




(** * Further properties of the code *)

(** ** Stripping *)

Section StripFacts.

Lemma lstrip_plain_start (s : string) : plain_start (lstrip "./" s) = true.
Proof.
  induction s as [|c s IH]; [reflexivity|]. cbn [lstrip].
  destruct (in_chars c "./") eqn:Hc; [exact IH|].
  cbn [plain_start]. by rewrite Hc.
Qed.

Lemma lstrip_only_chars (chars s : string) :
  only_chars chars s = true -> lstrip chars s = "".
Proof.
  induction s as [|c s IH]; [reflexivity|]. cbn [only_chars lstrip].
  intros H. apply andb_true_iff in H as [Hc Hs]. rewrite Hc. by apply IH.
Qed.

(** [rstrip] cuts a string into what it keeps and the run it removes. *)
Lemma rstrip_split (chars s : string) :
  exists t, s = rstrip chars s ++ t /\ only_chars chars t = true.
Proof.
  induction s as [|c s (t & Hs & Ht)].
  - by exists "".
  - cbn [rstrip]. destruct (rstrip chars s) as [|d r] eqn:Hr.
    + rewrite append_empty in Hs. subst t.
      destruct (in_chars c chars) eqn:Hc.
      * exists (String c s). split; [by rewrite append_empty|].
        cbn [only_chars]. by rewrite Hc, Ht.
      * exists s. split; [by rewrite append_cons, append_empty | exact Ht].
    + exists t. split; [|exact Ht]. by rewrite append_cons, <- Hs.
Qed.

Lemma rstrip_no_trailing_slash (s : string) :
  endswith (rstrip "/" s) "/" = false.
Proof.
  induction s as [|c s IH]; [reflexivity|]. cbn [rstrip].
  destruct (rstrip "/" s) as [|d r] eqn:Hr.
  - destruct (in_chars c "/") eqn:Hc; [reflexivity|].
    rewrite endswith_cons. cbn in Hc. apply orb_false_iff in Hc as [Hc _].
    rewrite Hc. reflexivity.
  - rewrite endswith_cons, IH.
    rewrite (bool_decide_false (String d r = "")) by discriminate.
    by rewrite andb_false_r.
Qed.

Lemma rstrip_fixed (s : string) :
  endswith s "/" = false -> rstrip "/" s = s.
Proof.
  induction s as [|c s IH]; [reflexivity|].
  rewrite endswith_cons. intros H. apply orb_false_iff in H as [Hc Hs].
  cbn [rstrip]. rewrite (IH Hs). destruct s as [|d s]; [|reflexivity].
  rewrite (bool_decide_true ("" = "")), andb_true_r in Hc by reflexivity.
  cbn. by rewrite Hc.
Qed.

Lemma rstrip_app_only (chars s t : string) :
  only_chars chars t = true -> rstrip chars (s ++ t) = rstrip chars s.
Proof.
  intros Ht.
  assert (Hnil : rstrip chars t = "").
  { induction t as [|c t IH]; [reflexivity|]. cbn [only_chars] in Ht.
    apply andb_true_iff in Ht as [Hc Ht]. cbn [rstrip]. by rewrite (IH Ht), Hc. }
  induction s as [|c s IH].
  - by rewrite append_empty.
  - rewrite append_cons. cbn [rstrip]. by rewrite IH.
Qed.

Lemma contains_char_app (c : ascii) (a b : string) :
  contains (String c "") (a ++ b)
  = contains (String c "") a || contains (String c "") b.
Proof.
  induction a as [|x a IH]; [by rewrite append_empty|].
  rewrite append_cons, !contains_cons, IH. by rewrite orb_assoc.
Qed.

End StripFacts.

(** ** More on the entry resolver *)

Section ResolverFacts.

Variable m : gmap string json.

(** [exports["."]["default"]] decides when there is no [jsdelivr]. *)
Lemma resolve_exports_default (ex d : gmap string json) (entry : string) :
  m !! "jsdelivr" = None ->
  m !! "exports" = Some (JObj ex) ->
  ex !! "." = Some (JObj d) ->
  d !! "default" = Some (JStr entry) ->
  resolve_entry_file (JObj m) = Ret (Some (lstrip "./" entry)).
Proof. intros Hj He Hdot Hd. run_resolver. Qed.

(** So does a string [exports["."]]. *)
Lemma resolve_exports_dot_string (ex : gmap string json) (entry : string) :
  m !! "jsdelivr" = None ->
  m !! "exports" = Some (JObj ex) ->
  ex !! "." = Some (JStr entry) ->
  resolve_entry_file (JObj m) = Ret (Some (lstrip "./" entry)).
Proof. intros Hj He Hdot. run_resolver. Qed.

(** Whatever [exports] does not give, the resolver goes on as if the key
    were absent. *)
Lemma resolve_exports_skipped (exports : json) :
  m !! "exports" = Some exports ->
  entry_of_exports exports = Ret None ->
  resolve_entry_file (JObj m) = resolve_entry_file (JObj (delete "exports" m)).
Proof.
  intros He Hskip. unfold resolve_entry_file. cbn.
  rewrite lookup_delete_eq, !lookup_delete_ne by discriminate.
  rewrite He. cbn. destruct (m !! "jsdelivr"); cbn; [reflexivity|].
  rewrite Hskip. reflexivity.
Qed.

End ResolverFacts.

(** X1. The order of the docstring, jsdelivr > exports["."]["default"] >
    exports["."] as a string > main: a [jsdelivr] string is the entry
    whatever [exports] and [main] hold, and without [jsdelivr] the [default]
    of a dict [exports["."]], or a string [exports["."]], is the entry
    whatever [main] holds. *)
Theorem resolution_order (m ex d : gmap string json) (entry : string) :
  (m !! "jsdelivr" = Some (JStr entry) ->
   resolve_entry_file (JObj m) = Ret (Some (lstrip "./" entry))) /\
  (m !! "jsdelivr" = None -> m !! "exports" = Some (JObj ex) ->
   ex !! "." = Some (JObj d) -> d !! "default" = Some (JStr entry) ->
   resolve_entry_file (JObj m) = Ret (Some (lstrip "./" entry))) /\
  (m !! "jsdelivr" = None -> m !! "exports" = Some (JObj ex) ->
   ex !! "." = Some (JStr entry) ->
   resolve_entry_file (JObj m) = Ret (Some (lstrip "./" entry))).
Proof.
  split; [|split].
  - apply resolve_jsdelivr.
  - apply resolve_exports_default.
  - apply resolve_exports_dot_string.
Qed.

Lemma resolution_order_witness :
  resolve_entry_file (JObj manifest_exports_and_jsdelivr)
    = Ret (Some (lstrip "./" "dist/pkg.min.js")) /\
  resolve_entry_file (JObj manifest_exports_default)
    = Ret (Some (lstrip "./" "./dist/vue.runtime.esm-bundler.js")) /\
  resolve_entry_file (JObj manifest_exports_dot_string)
    = Ret (Some (lstrip "./" "./esm/index.mjs")).
Proof.
  split; [|split].
  - apply (proj1 (resolution_order manifest_exports_and_jsdelivr ∅ ∅ "dist/pkg.min.js")).
    reflexivity.
  - apply (proj1 (proj2 (resolution_order manifest_exports_default
             {[ "." := JObj {[ "default" := JStr "./dist/vue.runtime.esm-bundler.js" ]} ]}
             {[ "default" := JStr "./dist/vue.runtime.esm-bundler.js" ]}
             "./dist/vue.runtime.esm-bundler.js"))); reflexivity.
  - apply (proj2 (proj2 (resolution_order manifest_exports_dot_string
             {[ "." := JStr "./esm/index.mjs" ]} ∅ "./esm/index.mjs"))); reflexivity.
Defined.

(** X2. An [exports] field that is not a dict (a bare string, say), or a
    dict without the key ["."], plays no part: the resolver answers as for
    the same manifest without [exports]. *)
Theorem exports_without_dot_is_ignored (m : gmap string json) (exports : json) :
  m !! "exports" = Some exports ->
  (forall ex, exports = JObj ex -> ex !! "." = None) ->
  resolve_entry_file (JObj m) = resolve_entry_file (JObj (delete "exports" m)).
Proof.
  intros He Hdot. apply (resolve_exports_skipped m exports He).
  destruct exports as [| | | |l|ex]; try reflexivity.
  cbn. by rewrite (Hdot ex eq_refl).
Qed.

Lemma exports_without_dot_is_ignored_witness :
  resolve_entry_file (JObj manifest_exports_string)
  = resolve_entry_file (JObj (delete "exports" manifest_exports_string)).
Proof.
  apply (exports_without_dot_is_ignored manifest_exports_string (JStr "./esm/index.mjs")).
  - reflexivity.
  - discriminate.
Defined.

(** X3. A [jsdelivr] field that is not a string makes the resolver raise
    [AttributeError], the [lstrip] method being absent; [exports] and [main]
    are not tried. *)
Theorem jsdelivr_not_a_string_raises (m : gmap string json) (v : json) :
  m !! "jsdelivr" = Some v ->
  Py.type_name v <> "str" ->
  resolve_entry_file (JObj m)
  = Raise (AttributeError ("'" ++ Py.type_name v
                           ++ "' object has no attribute 'lstrip'")).
Proof.
  intros Hj Hv. unfold resolve_entry_file. cbn. rewrite Hj. cbn.
  destruct v; try reflexivity. by destruct Hv.
Qed.

Lemma jsdelivr_not_a_string_raises_witness :
  resolve_entry_file (JObj manifest_null_jsdelivr)
  = Raise (AttributeError ("'" ++ Py.type_name JNull
                           ++ "' object has no attribute 'lstrip'")).
Proof.
  apply (jsdelivr_not_a_string_raises manifest_null_jsdelivr JNull).
  - reflexivity.
  - discriminate.
Defined.

Lemma py_lstrip_plain (v : json) (s : string) :
  Py.lstrip v "./" = Ret s -> plain_start s = true.
Proof.
  destruct v; cbn; try discriminate. intros [= <-]. apply lstrip_plain_start.
Qed.

Lemma entry_of_exports_plain (exports : json) (entry : string) :
  entry_of_exports exports = Ret (Some entry) -> plain_start entry = true.
Proof.
  unfold entry_of_exports, mbind, result_bind, mret, result_ret. intros H.
  crack H; try discriminate; injection H as <-;
    eauto using py_lstrip_plain, lstrip_plain_start.
Qed.

(** X4. Whatever value is resolved, an entry that is returned begins with
    neither a dot nor a slash. *)
Theorem resolved_entry_is_plain (package_json : json) (entry : string) :
  resolve_entry_file package_json = Ret (Some entry) ->
  plain_start entry = true.
Proof.
  unfold resolve_entry_file, mbind, result_bind, mret, result_ret. intros H.
  crack H; try discriminate; injection H as <-;
    eauto using py_lstrip_plain, entry_of_exports_plain.
Qed.

Lemma resolved_entry_is_plain_witness :
  plain_start "build/index.min.js" = true.
Proof.
  apply (resolved_entry_is_plain (JObj manifest_hidden_build)). reflexivity.
Defined.

(** X5. A [main] made of dots and slashes only (["./"], ["."], ["/"]) is
    resolved to the empty string, which is an entry and not [None]. *)
Theorem main_of_dots_resolves_to_empty (m : gmap string json) (main : string) :
  m !! "jsdelivr" = None -> m !! "exports" = None ->
  m !! "main" = Some (JStr main) ->
  only_chars "./" main = true ->
  resolve_entry_file (JObj m) = Ret (Some "").
Proof.
  intros Hj He Hm Hd. rewrite (resolve_main_only m main Hj He Hm).
  by rewrite (lstrip_only_chars "./" main Hd).
Qed.

Lemma main_of_dots_resolves_to_empty_witness :
  resolve_entry_file (JObj manifest_main_is_dir) = Ret (Some "").
Proof.
  apply (main_of_dots_resolves_to_empty manifest_main_is_dir "./"); reflexivity.
Defined.

(** ** More on the request classifier *)

Section ClassifierFacts.

Lemma append_assoc (a b c : string) : (a ++ b) ++ c = a ++ (b ++ c).
Proof.
  induction a as [|x a IH]; [by rewrite !append_empty|].
  by rewrite !append_cons, IH.
Qed.

Lemma append_empty_r (a : string) : a ++ "" = a.
Proof. induction a as [|x a IH]; [reflexivity|]. by rewrite append_cons, IH. Qed.

(** A run of slashes that is not empty starts with a slash. *)
Lemma only_slashes_cons (t : string) :
  only_chars "/" t = true -> t <> "" ->
  exists t', t = "/" ++ t' /\ only_chars "/" t' = true.
Proof.
  destruct t as [|c t]; [done|]. cbn [only_chars]. intros H _.
  apply andb_true_iff in H as [Hc Ht]. cbn in Hc.
  apply orb_true_iff in Hc as [Hc|Hc]; [|discriminate].
  apply bool_decide_eq_true in Hc as ->. by exists t.
Qed.

(** What [rstrip] removes from a string that ends with a slash. *)
Lemma rstrip_trailing (s : string) :
  endswith s "/" = true ->
  exists t, s = rstrip "/" s ++ "/" ++ t /\ only_chars "/" t = true.
Proof.
  intros He. destruct (rstrip_split "/" s) as (t & Hs & Ht).
  destruct (only_slashes_cons t Ht) as (t' & -> & Ht').
  - intros ->. rewrite append_empty_r in Hs.
    pose proof (rstrip_no_trailing_slash s) as Hn. rewrite <- Hs in Hn. congruence.
  - by exists t'.
Qed.

Lemma endswith_slash_cons (f : string) :
  endswith (String "/" f) "/" = bool_decide (f = "") || endswith f "/".
Proof. rewrite endswith_cons. by rewrite bool_decide_true. Qed.

(** Each documented form is read back as the shape it was written from. *)
Lemma classify_url_of (shape : RequestShape) :
  well_formed shape = true -> classify (url_of shape) = shape.
Proof.
  destruct shape as [p|p|p v|p v|p v f|]; cbn [well_formed url_of]; intros H;
    repeat (apply andb_true_iff in H as [H ?]);
    repeat match goal with
           | H : negb _ = true |- _ => apply negb_true_iff in H
           end.
  - rewrite (classify_without_at p) by done. by rewrite H0.
  - assert (Hat : contains "@" (p ++ "/") = false)
      by (by rewrite contains_char_app, H).
    rewrite (classify_without_at _ Hat).
    rewrite endswith_app by discriminate. cbn [endswith]. cbn.
    rewrite (rstrip_app_only "/" p "/") by reflexivity. by rewrite rstrip_fixed.
  - rewrite (classify_with_at p v) by done. by rewrite H0.
  - rewrite (classify_with_at p (v ++ "/")) by done.
    rewrite contains_char_app, orb_true_r. cbn [negb].
    rewrite endswith_app by discriminate.
    rewrite (rstrip_app_only "/" v "/") by reflexivity. by rewrite rstrip_fixed.
  - rewrite (classify_with_at p (v ++ "/" ++ f)) by done.
    rewrite contains_char_app, orb_true_r. cbn [negb].
    change ("/" ++ f) with (String "/" f).
    rewrite endswith_app by discriminate. rewrite endswith_slash_cons, H0, H1.
    cbn [orb]. by rewrite (partition_first "/" v f) by done.
  - discriminate.
Qed.

(** What [classify] returns is well formed. *)
Lemma classify_well_formed (path : string) : well_formed (classify path) = true.
Proof.
  destruct (contains "@" path) eqn:Hat.
  - destruct (path_with_at path Hat) as (a & b & -> & Ha & _).
    rewrite (classify_with_at a b Ha).
    destruct (contains "/" b) eqn:Hs; cbn [negb].
    + destruct (endswith b "/") eqn:He.
      * cbn. by rewrite Ha, rstrip_no_trailing_slash.
      * apply partition_is_Some in Hs as [[v f] Hp]. rewrite Hp.
        apply partition_inv in Hp as [-> Hv].
        rewrite endswith_app, endswith_slash_cons in He by discriminate.
        apply orb_false_iff in He as [Hf He]. cbn. by rewrite Ha, Hv, Hf, He.
    + cbn. by rewrite Ha, Hs.
  - rewrite (classify_without_at path Hat). destruct (endswith path "/") eqn:He.
    + cbn. rewrite rstrip_no_trailing_slash.
      destruct (rstrip_split "/" path) as (t & Hs & _).
      rewrite Hs, contains_char_app in Hat. apply orb_false_iff in Hat as [-> _].
      reflexivity.
    + cbn. by rewrite Hat, He.
Qed.

(** A path is its documented form, followed by the slashes [rstrip]
    removed beyond the first. *)
Lemma classify_path_of (path : string) :
  exists extra,
    path = url_of (classify path) ++ extra /\ only_chars "/" extra = true /\
    (endswith path "/" = false -> extra = "").
Proof.
  destruct (contains "@" path) eqn:Hat.
  - destruct (path_with_at path Hat) as (a & b & -> & Ha & _).
    rewrite (classify_with_at a b Ha), endswith_at_app.
    destruct (contains "/" b) eqn:Hs; cbn [negb].
    + destruct (endswith b "/") eqn:He.
      * destruct (rstrip_trailing b He) as (t & Hb & Ht). exists t.
        split; [|split; [exact Ht | discriminate]].
        cbn [url_of]. rewrite !append_assoc. by rewrite <- Hb.
      * apply partition_is_Some in Hs as [[v f] Hp]. rewrite Hp.
        apply partition_inv in Hp as [-> Hv]. exists "".
        by rewrite append_empty_r.
    + exists "". by rewrite append_empty_r.
  - rewrite (classify_without_at path Hat). destruct (endswith path "/") eqn:He.
    + destruct (rstrip_trailing path He) as (t & Hp & Ht). exists t.
      split; [|split; [exact Ht | discriminate]].
      cbn [url_of]. rewrite append_assoc. exact Hp.
    + exists "". by rewrite append_empty_r.
Qed.

End ClassifierFacts.

(** X6. Each URL form the landing page lists is routed back to its shape:
    a well-formed shape, written as its URL, is classified as itself. *)
Theorem documented_form_round_trip (shape : RequestShape) :
  well_formed shape = true -> classify (url_of shape) = shape.
Proof. apply classify_url_of. Qed.

Lemma documented_form_round_trip_witness :
  classify (url_of (PackageFileVersioned "vue" "3.3.4" "dist/vue.runtime.esm-browser.js"))
  = PackageFileVersioned "vue" "3.3.4" "dist/vue.runtime.esm-browser.js".
Proof.
  apply (documented_form_round_trip
           (PackageFileVersioned "vue" "3.3.4" "dist/vue.runtime.esm-browser.js")).
  reflexivity.
Defined.

(** X7. Classification loses nothing but repeated trailing slashes: the
    shape of a path is well formed, the path is the URL form of its shape
    followed by slashes only (by nothing when the path does not end with a
    slash), and classifying that URL form gives the same shape again. *)
Theorem classification_is_canonical (path : string) :
  well_formed (classify path) = true /\
  classify (url_of (classify path)) = classify path /\
  exists extra,
    path = url_of (classify path) ++ extra /\ only_chars "/" extra = true /\
    (endswith path "/" = false -> extra = "").
Proof.
  split; [apply classify_well_formed|]. split; [|apply classify_path_of].
  apply classify_url_of, classify_well_formed.
Qed.

(** ** More on the handlers *)

(** Unfolds a handler down to the answers of the servers, leaving the
    content fetcher and the resolver as they are. *)
Ltac handler_unfold H :=
  unfold run, handle_request, get_package_entry, get_package_directory,
    redirect_to_latest, io_try, io_lift, http_get,
    mbind, mret, io_mbind, io_mret, io_bind, io_ret in H;
  cbn -[get_package_file resolve_entry_file classify Codec.encode] in H.

Section HandlerFacts.

Variable net : client -> string -> result http_response.
Variable py_repr : json -> string.

(** The content fetcher never raises, asks jsDelivr, then at most unpkg,
    and answers 200 or 404. *)
Lemma get_package_file_outcome (package_name version file_path : string)
    (log : list call) :
  exists resp calls,
    get_package_file net package_name version file_path log
      = (Ret resp, (log ++ calls)%list) /\
    (status_of resp = 200 \/ status_of resp = 404) /\
    (calls = [Get CdnClient (JSDELIVR_CDN ++ "/" ++ package_name ++ "@" ++ version
                             ++ "/" ++ file_path)] \/
     calls = [Get CdnClient (JSDELIVR_CDN ++ "/" ++ package_name ++ "@" ++ version
                             ++ "/" ++ file_path);
              Get CdnClient (UNPKG_CDN ++ "/" ++ package_name ++ "@" ++ version
                             ++ "/" ++ file_path)]).
Proof.
  unfold get_package_file, cdn_urls. cbn [fetch_first].
  unfold mbind, io_mbind, io_bind.
  set (u1 := JSDELIVR_CDN ++ _). set (u2 := UNPKG_CDN ++ _).
  destruct (origin_fails net u1) eqn:Hf1.
  - rewrite (try_origin_fails net u1 log Hf1).
    destruct (origin_fails net u2) eqn:Hf2.
    + rewrite (try_origin_fails net u2 _ Hf2). rewrite <- app_assoc.
      eexists _, _. split; [reflexivity|]. split; [by right | by right].
    + destruct (origin_answers net u2 Hf2) as (r & Hn & Hs & Hh).
      rewrite (try_origin_200 net u2 r _ Hn Hs Hh). rewrite <- app_assoc.
      eexists _, _. split; [reflexivity|]. split; [by left | by right].
  - destruct (origin_answers net u1 Hf1) as (r & Hn & Hs & Hh).
    rewrite (try_origin_200 net u1 r _ Hn Hs Hh).
    eexists _, _. split; [reflexivity|]. split; [by left | by left].
Qed.

End HandlerFacts.

(** X8. The entry handler never raises: it always returns a response, with
    status 200, 404 or 500; its first request goes to the registry and any
    other (at most two) goes to a CDN. *)
Theorem entry_handler_always_responds
    (net : client -> string -> result http_response) (py_repr : json -> string)
    (package_name : string) (version : option string) :
  exists resp calls,
    run (get_package_entry net py_repr package_name version)
      = (Ret resp, Get RegistryClient (NPM_REGISTRY ++ "/" ++ package_name) :: calls) /\
    (status_of resp = 200 \/ status_of resp = 404 \/ status_of resp = 500) /\
    Forall is_cdn_call calls /\ (length calls <= 2)%nat.
Proof.
  destruct (run (get_package_entry net py_repr package_name version))
    as [res log] eqn:H.
  handler_unfold H.
  crack H;
    try solve [injection H as <- <-; eexists _, []; split; [reflexivity|];
               split; [cbn; auto|]; split; [constructor | cbn; lia]].
  all: match goal with
       | Hp : get_package_file _ ?p ?v ?f ?l0 = _ |- _ =>
           destruct (get_package_file_outcome net p v f l0)
             as (resp & calls & Hrun & Hst & Hcalls);
           rewrite Hrun in Hp; try discriminate;
           injection Hp as <- <-; injection H as <- <-
       end.
  all: exists resp, calls; (split; [reflexivity|]); (split; [tauto|]).
  all: destruct Hcalls as [-> | ->]; split; repeat constructor.
Qed.

(** The same unfolding, in the goal. *)
Ltac handler_unfold_goal :=
  unfold run, handle_request, get_package_entry, get_package_directory,
    redirect_to_latest, io_try, io_lift, http_get,
    mbind, mret, io_mbind, io_mret, io_bind, io_ret;
  cbn -[get_package_file resolve_entry_file classify Codec.encode].

(** X9. When the registry cannot be reached, each of the three handlers
    that query it answers 500 with the text of the exception, and sends no
    other request. *)
Theorem registry_unreachable
    (net : client -> string -> result http_response) (py_repr : json -> string)
    (package_name version : string) (pinned : option string) (cause : exn) :
  net RegistryClient (NPM_REGISTRY ++ "/" ++ package_name) = Raise cause ->
  let registry_only := [Get RegistryClient (NPM_REGISTRY ++ "/" ++ package_name)] in
  run (get_package_entry net py_repr package_name pinned)
    = (Ret (Response ("Error: " ++ str_exn py_repr cause) 500 None []), registry_only) /\
  run (get_package_directory net py_repr package_name version)
    = (Ret (HTMLResponse ("<h1>Error: " ++ str_exn py_repr cause ++ "</h1>") 500),
       registry_only) /\
  run (redirect_to_latest net py_repr package_name)
    = (Ret (HTMLResponse ("<h1>Error: " ++ str_exn py_repr cause ++ "</h1>") 500),
       registry_only).
Proof.
  intros Hn registry_only. repeat split; handler_unfold_goal; by rewrite Hn.
Qed.

Lemma registry_unreachable_witness :
  run (get_package_entry net_offline sample_repr "lodash" None)
    = (Ret (Response ("Error: " ++ str_exn sample_repr
                        (RequestError "All connection attempts failed")) 500 None []),
       [Get RegistryClient (NPM_REGISTRY ++ "/" ++ "lodash")]) /\
  run (get_package_directory net_offline sample_repr "lodash" "4.17.21")
    = (Ret (HTMLResponse ("<h1>Error: " ++ str_exn sample_repr
                            (RequestError "All connection attempts failed")
                          ++ "</h1>") 500),
       [Get RegistryClient (NPM_REGISTRY ++ "/" ++ "lodash")]) /\
  run (redirect_to_latest net_offline sample_repr "lodash")
    = (Ret (HTMLResponse ("<h1>Error: " ++ str_exn sample_repr
                            (RequestError "All connection attempts failed")
                          ++ "</h1>") 500),
       [Get RegistryClient (NPM_REGISTRY ++ "/" ++ "lodash")]).
Proof.
  apply (registry_unreachable net_offline sample_repr "lodash" "4.17.21" None
           (RequestError "All connection attempts failed")).
  reflexivity.
Defined.

(** X10. An entry request for a pinned, non-empty version that the manifest
    lists, and whose entry resolves to a path, is answered exactly as the
    file request for that package, version and path would be, after the one
    request to the registry. *)
Theorem entry_is_served_as_a_file
    (net : client -> string -> result http_response) (py_repr : json -> string)
    (package_name version entry_file : string) (r : http_response)
    (manifest versions : gmap string json) (version_data : json) :
  version <> "" ->
  net RegistryClient (NPM_REGISTRY ++ "/" ++ package_name) = Ret r ->
  status_code r <> 404 ->
  json_body r = Ret (JObj manifest) ->
  manifest !! "versions" = Some (JObj versions) ->
  versions !! version = Some version_data ->
  resolve_entry_file version_data = Ret (Some entry_file) ->
  run (get_package_entry net py_repr package_name (Some version))
  = get_package_file net package_name version entry_file
      [Get RegistryClient (NPM_REGISTRY ++ "/" ++ package_name)].
Proof.
  intros Hv Hn Hs Hj Hvs Hvd He. handler_unfold_goal. rewrite Hn.
  apply Z.eqb_neq in Hs. rewrite Hs, Hj. cbn -[get_package_file resolve_entry_file].
  rewrite (bool_decide_false (version = "")) by exact Hv.
  cbn -[get_package_file resolve_entry_file].
  rewrite Hvs. cbn -[get_package_file resolve_entry_file].
  rewrite Hvd. cbn -[get_package_file resolve_entry_file]. rewrite He.
  destruct (get_package_file_outcome net package_name version entry_file
              [Get RegistryClient (NPM_REGISTRY ++ "/" ++ package_name)])
    as (resp & calls & -> & _). reflexivity.
Qed.

Lemma entry_is_served_as_a_file_witness :
  run (get_package_entry net_lodash sample_repr "lodash" (Some "4.17.21"))
  = get_package_file net_lodash "lodash" "4.17.21" "lodash.js"
      [Get RegistryClient (NPM_REGISTRY ++ "/" ++ "lodash")].
Proof.
  apply (entry_is_served_as_a_file net_lodash sample_repr "lodash" "4.17.21" "lodash.js"
           (json_page 200 (JObj lodash_manifest)) lodash_manifest lodash_versions
           (JObj {[ "main" := JStr "lodash.js" ]}));
    (reflexivity || discriminate).
Defined.

(** X11. [latest] is an alias: when the manifest gives [dist-tags.latest] as
    the string V, an entry request without a version is handled exactly as
    the entry request pinned to V. *)
Theorem latest_is_an_alias
    (net : client -> string -> result http_response) (py_repr : json -> string)
    (package_name latest : string) (r : http_response)
    (manifest dist_tags : gmap string json) :
  net RegistryClient (NPM_REGISTRY ++ "/" ++ package_name) = Ret r ->
  json_body r = Ret (JObj manifest) ->
  manifest !! "dist-tags" = Some (JObj dist_tags) ->
  dist_tags !! "latest" = Some (JStr latest) ->
  run (get_package_entry net py_repr package_name None)
  = run (get_package_entry net py_repr package_name (Some latest)).
Proof.
  intros Hn Hj Hd Hl. handler_unfold_goal. rewrite Hn.
  destruct (status_code r =? 404); [reflexivity|]. rewrite Hj.
  cbn -[get_package_file resolve_entry_file]. rewrite Hd.
  cbn -[get_package_file resolve_entry_file]. rewrite Hl.
  destruct (bool_decide (latest = "")); reflexivity.
Qed.

Lemma latest_is_an_alias_witness :
  run (get_package_entry net_lodash sample_repr "lodash" None)
  = run (get_package_entry net_lodash sample_repr "lodash" (Some "4.17.21")).
Proof.
  apply (latest_is_an_alias net_lodash sample_repr "lodash" "4.17.21"
           (json_page 200 (JObj lodash_manifest)) lodash_manifest
           {[ "latest" := JStr "4.17.21"; "beta" := JStr "5.0.0-beta.1" ]});
    reflexivity.
Defined.

(** X12. An entry request without a version, for a manifest that has no
    [dist-tags.latest] (no [dist-tags], or no [latest] in it, or a null
    one), is answered 404 with the body "404 Version None Not Found", and no
    CDN is asked. *)
Theorem no_latest_tag_is_404
    (net : client -> string -> result http_response) (py_repr : json -> string)
    (package_name : string) (r : http_response)
    (manifest dist_tags versions : gmap string json) :
  net RegistryClient (NPM_REGISTRY ++ "/" ++ package_name) = Ret r ->
  status_code r <> 404 ->
  json_body r = Ret (JObj manifest) ->
  default (JObj ∅) (manifest !! "dist-tags") = JObj dist_tags ->
  default JNull (dist_tags !! "latest") = JNull ->
  default (JObj ∅) (manifest !! "versions") = JObj versions ->
  run (get_package_entry net py_repr package_name None)
  = (Ret (Response "404 Version None Not Found" 404 None []),
     [Get RegistryClient (NPM_REGISTRY ++ "/" ++ package_name)]).
Proof.
  intros Hn Hs Hj Hd Hl Hvs. handler_unfold_goal. rewrite Hn.
  apply Z.eqb_neq in Hs. rewrite Hs, Hj. cbn -[get_package_file resolve_entry_file].
  rewrite Hd. cbn -[get_package_file resolve_entry_file].
  rewrite Hl, Hvs. reflexivity.
Qed.

Lemma no_latest_tag_is_404_witness :
  run (get_package_entry net_no_latest sample_repr "lodash" None)
  = (Ret (Response "404 Version None Not Found" 404 None []),
     [Get RegistryClient (NPM_REGISTRY ++ "/" ++ "lodash")]).
Proof.
  apply (no_latest_tag_is_404 net_no_latest sample_repr "lodash"
           (json_page 200 (JObj {[ "versions" := JObj lodash_versions ]}))
           {[ "versions" := JObj lodash_versions ]} ∅ lodash_versions);
    (reflexivity || discriminate).
Defined.

(** X13. When the version is listed but its manifest gives no entry, no CDN
    is asked: the answer is the 404 "404 Not Found" if the resolver returns
    [None], and a 500 quoting the exception if the resolver raises. *)
Theorem entry_not_resolved
    (net : client -> string -> result http_response) (py_repr : json -> string)
    (package_name version : string) (r : http_response)
    (manifest versions : gmap string json) (version_data : json) :
  version <> "" ->
  net RegistryClient (NPM_REGISTRY ++ "/" ++ package_name) = Ret r ->
  status_code r <> 404 ->
  json_body r = Ret (JObj manifest) ->
  manifest !! "versions" = Some (JObj versions) ->
  versions !! version = Some version_data ->
  let handled := run (get_package_entry net py_repr package_name (Some version)) in
  let registry_only := [Get RegistryClient (NPM_REGISTRY ++ "/" ++ package_name)] in
  (resolve_entry_file version_data = Ret None ->
   handled = (Ret (Response "404 Not Found" 404 None []), registry_only)) /\
  (forall cause, resolve_entry_file version_data = Raise cause ->
   handled = (Ret (Response ("Error: " ++ str_exn py_repr cause) 500 None []),
              registry_only)).
Proof.
  intros Hv Hn Hs Hj Hvs Hvd handled registry_only. subst handled.
  handler_unfold_goal. rewrite Hn.
  apply Z.eqb_neq in Hs. rewrite Hs, Hj. cbn -[get_package_file resolve_entry_file].
  rewrite (bool_decide_false (version = "")) by exact Hv.
  cbn -[get_package_file resolve_entry_file].
  rewrite Hvs. cbn -[get_package_file resolve_entry_file].
  rewrite Hvd. cbn -[get_package_file resolve_entry_file].
  split; [intros -> | intros cause ->]; reflexivity.
Qed.

Lemma entry_not_resolved_witness :
  run (get_package_entry net_left_pad sample_repr "left-pad" (Some "1.3.0"))
    = (Ret (Response "404 Not Found" 404 None []),
       [Get RegistryClient (NPM_REGISTRY ++ "/" ++ "left-pad")]) /\
  run (get_package_entry net_left_pad sample_repr "left-pad" (Some "1.2.9"))
    = (Ret (Response ("Error: " ++ str_exn sample_repr
                        (AttributeError "'NoneType' object has no attribute 'lstrip'"))
                     500 None []),
       [Get RegistryClient (NPM_REGISTRY ++ "/" ++ "left-pad")]).
Proof.
  split.
  - apply (proj1 (entry_not_resolved net_left_pad sample_repr "left-pad" "1.3.0"
                    (json_page 200 (JObj left_pad_manifest)) left_pad_manifest
                    {[ "1.3.0" := JObj manifest_no_entry;
                       "1.2.9" := JObj manifest_null_jsdelivr ]}
                    (JObj manifest_no_entry)
                    ltac:(discriminate) eq_refl ltac:(discriminate)
                    eq_refl eq_refl eq_refl)).
    reflexivity.
  - apply (proj2 (entry_not_resolved net_left_pad sample_repr "left-pad" "1.2.9"
                    (json_page 200 (JObj left_pad_manifest)) left_pad_manifest
                    {[ "1.3.0" := JObj manifest_no_entry;
                       "1.2.9" := JObj manifest_null_jsdelivr ]}
                    (JObj manifest_null_jsdelivr)
                    ltac:(discriminate) eq_refl ltac:(discriminate)
                    eq_refl eq_refl eq_refl)).
    reflexivity.
Defined.

(** X14. The directory handler never raises and never asks a CDN: it sends
    the one request to the registry and answers 200, 404 or 500. *)
Theorem directory_handler_frame
    (net : client -> string -> result http_response) (py_repr : json -> string)
    (package_name version : string) :
  exists resp,
    run (get_package_directory net py_repr package_name version)
      = (Ret resp, [Get RegistryClient (NPM_REGISTRY ++ "/" ++ package_name)]) /\
    (status_of resp = 200 \/ status_of resp = 404 \/ status_of resp = 500).
Proof.
  destruct (run (get_package_directory net py_repr package_name version))
    as [res log] eqn:H.
  handler_unfold H.
  crack H; injection H as <- <-; eexists; (split; [reflexivity|]); cbn; auto.
Qed.

(** X15. The directory handler looks the version up as it is written, the
    empty string included: a version that is a key of [versions] gets the
    fixed listing of the package, whatever that version holds, and any other
    gets a 404 that names it. *)
Theorem directory_listing_by_version
    (net : client -> string -> result http_response) (py_repr : json -> string)
    (package_name version : string) (r : http_response)
    (manifest versions : gmap string json) :
  net RegistryClient (NPM_REGISTRY ++ "/" ++ package_name) = Ret r ->
  status_code r <> 404 ->
  json_body r = Ret (JObj manifest) ->
  default (JObj ∅) (manifest !! "versions") = JObj versions ->
  let handled := run (get_package_directory net py_repr package_name version) in
  let registry_only := [Get RegistryClient (NPM_REGISTRY ++ "/" ++ package_name)] in
  (is_Some (versions !! version) ->
   handled = (Ret (HTMLResponse (html_content package_name) 200), registry_only)) /\
  (versions !! version = None ->
   handled = (Ret (HTMLResponse ("<h1>404 Version " ++ version ++ " Not Found</h1>") 404),
              registry_only)).
Proof.
  intros Hn Hs Hj Hvs handled registry_only. subst handled.
  handler_unfold_goal. rewrite Hn. apply Z.eqb_neq in Hs. rewrite Hs, Hj.
  cbn. rewrite Hvs. cbn.
  split; [intros [vd ->] | intros ->]; reflexivity.
Qed.

Lemma directory_listing_by_version_witness :
  run (get_package_directory net_lodash sample_repr "lodash" "4.17.21")
    = (Ret (HTMLResponse (html_content "lodash") 200),
       [Get RegistryClient (NPM_REGISTRY ++ "/" ++ "lodash")]) /\
  run (get_package_directory net_lodash sample_repr "lodash" "")
    = (Ret (HTMLResponse ("<h1>404 Version " ++ "" ++ " Not Found</h1>") 404),
       [Get RegistryClient (NPM_REGISTRY ++ "/" ++ "lodash")]).
Proof.
  split.
  - apply (proj1 (directory_listing_by_version net_lodash sample_repr "lodash" "4.17.21"
                    (json_page 200 (JObj lodash_manifest)) lodash_manifest
                    lodash_versions eq_refl ltac:(discriminate) eq_refl eq_refl)).
    by eexists.
  - apply (proj2 (directory_listing_by_version net_lodash sample_repr "lodash" ""
                    (json_page 200 (JObj lodash_manifest)) lodash_manifest
                    lodash_versions eq_refl ltac:(discriminate) eq_refl eq_refl)).
    reflexivity.
Defined.

(** X16. Case 2 of [handle_request], for a manifest that is an object: a
    [dist-tags.latest] that is a non-empty string V redirects to
    [/{package}@V/] when that URL has a UTF-8 encoding, and gives a 500
    quoting the [UnicodeEncodeError] when it has none (V holds a lone
    surrogate); a [latest] that is absent, null or empty gives the 500
    "Cannot find latest version".  One request, to the registry. *)
Theorem redirect_needs_a_latest_tag
    (net : client -> string -> result http_response) (py_repr : json -> string)
    (package_name : string) (r : http_response)
    (manifest dist_tags : gmap string json) :
  net RegistryClient (NPM_REGISTRY ++ "/" ++ package_name) = Ret r ->
  status_code r <> 404 ->
  json_body r = Ret (JObj manifest) ->
  default (JObj ∅) (manifest !! "dist-tags") = JObj dist_tags ->
  let handled := run (redirect_to_latest net py_repr package_name) in
  let registry_only := [Get RegistryClient (NPM_REGISTRY ++ "/" ++ package_name)] in
  (forall latest, dist_tags !! "latest" = Some (JStr latest) -> latest <> "" ->
   Codec.encode Codec.Utf8 ("/" ++ package_name ++ "@" ++ latest ++ "/") = Ret tt ->
   handled = (Ret (RedirectResponse ("/" ++ package_name ++ "@" ++ latest ++ "/")),
              registry_only)) /\
  (forall latest cause, dist_tags !! "latest" = Some (JStr latest) -> latest <> "" ->
   Codec.encode Codec.Utf8 ("/" ++ package_name ++ "@" ++ latest ++ "/") = Raise cause ->
   handled = (Ret (HTMLResponse ("<h1>Error: " ++ str_exn py_repr cause ++ "</h1>") 500),
              registry_only)) /\
  (dist_tags !! "latest" = None \/ dist_tags !! "latest" = Some JNull
   \/ dist_tags !! "latest" = Some (JStr "") ->
   handled = (Ret (HTMLResponse "<h1>Error: Cannot find latest version</h1>" 500),
              registry_only)).
Proof.
  intros Hn Hs Hj Hd handled registry_only. subst handled.
  handler_unfold_goal. rewrite Hn. apply Z.eqb_neq in Hs. rewrite Hs, Hj.
  cbn -[Codec.encode]. rewrite Hd. cbn -[Codec.encode]. split; [|split].
  - intros latest -> Hl He. cbn -[Codec.encode].
    rewrite (bool_decide_false (latest = "")) by exact Hl. cbn -[Codec.encode].
    by rewrite He.
  - intros latest cause -> Hl He. cbn -[Codec.encode].
    rewrite (bool_decide_false (latest = "")) by exact Hl. cbn -[Codec.encode].
    by rewrite He.
  - intros [-> | [-> | ->]]; reflexivity.
Qed.

Lemma redirect_needs_a_latest_tag_witness :
  run (redirect_to_latest net_lodash sample_repr "lodash")
    = (Ret (RedirectResponse ("/" ++ "lodash" ++ "@" ++ "4.17.21" ++ "/")),
       [Get RegistryClient (NPM_REGISTRY ++ "/" ++ "lodash")]) /\
  run (redirect_to_latest net_surrogate_latest sample_repr "lodash")
    = (Ret (HTMLResponse
              ("<h1>Error: " ++
               str_exn sample_repr
                 (UnicodeEncodeError
                    "'utf-8' codec can't encode character '\ud800' in position 13: surrogates not allowed")
               ++ "</h1>") 500),
       [Get RegistryClient (NPM_REGISTRY ++ "/" ++ "lodash")]) /\
  run (redirect_to_latest net_no_latest sample_repr "lodash")
    = (Ret (HTMLResponse "<h1>Error: Cannot find latest version</h1>" 500),
       [Get RegistryClient (NPM_REGISTRY ++ "/" ++ "lodash")]).
Proof.
  split; [|split].
  - apply (proj1 (redirect_needs_a_latest_tag net_lodash sample_repr "lodash"
                    (json_page 200 (JObj lodash_manifest)) lodash_manifest
                    {[ "latest" := JStr "4.17.21"; "beta" := JStr "5.0.0-beta.1" ]}
                    eq_refl ltac:(discriminate) eq_refl eq_refl) "4.17.21").
    + reflexivity.
    + discriminate.
    + reflexivity.
  - apply (proj1 (proj2 (redirect_needs_a_latest_tag net_surrogate_latest sample_repr
                    "lodash"
                    (json_page 200
                       (JObj {[ "dist-tags" :=
                                  JObj {[ "latest" := JStr ("1.0.0" ++ lone_surrogate) ]};
                                "versions" := JObj lodash_versions ]}))
                    {[ "dist-tags" := JObj {[ "latest" := JStr ("1.0.0" ++ lone_surrogate) ]};
                       "versions" := JObj lodash_versions ]}
                    {[ "latest" := JStr ("1.0.0" ++ lone_surrogate) ]}
                    eq_refl ltac:(discriminate) eq_refl eq_refl))
             ("1.0.0" ++ lone_surrogate)).
    + reflexivity.
    + discriminate.
    + reflexivity.
  - apply (proj2 (proj2 (redirect_needs_a_latest_tag net_no_latest sample_repr "lodash"
                    (json_page 200 (JObj {[ "versions" := JObj lodash_versions ]}))
                    {[ "versions" := JObj lodash_versions ]} ∅
                    eq_refl ltac:(discriminate) eq_refl eq_refl))).
    by left.
Defined.

Section Routing.

Variable net : client -> string -> result http_response.
Variable py_repr : json -> string.


(** A path classified as a file request does not end with a slash and is
    the URL form of its components. *)
Lemma file_path_is_its_url (path p v f : string) :
  classify path = PackageFileVersioned p v f ->
  path = p ++ "@" ++ v ++ "/" ++ f.
Proof.
  intros Hc. destruct (classify_path_of path) as (extra & Hp & _ & Hx).
  rewrite Hc in Hp. cbn [url_of] in Hp.
  assert (He : endswith path "/" = false).
  { pose proof (classify_kind path) as Hk. rewrite Hc in Hk. cbn [kind_of] in Hk.
    destruct (contains "@" path), (contains "/" (after_at path)),
             (endswith path "/"); cbn in Hk; congruence. }
  rewrite (Hx He), append_empty_r in Hp. exact Hp.
Qed.

End Routing.



(** X18. A file request is passed to the CDNs as it is written: no request
    goes to the registry, jsDelivr is asked for the request path itself
    behind its origin, unpkg is the only other server that may be asked, for
    the same path, and the answer is a 200 or a 404. *)
Theorem file_request_is_verbatim
    (net : client -> string -> result http_response) (py_repr : json -> string)
    (full_path package_name version file_path : string) :
  classify full_path = PackageFileVersioned package_name version file_path ->
  exists resp calls,
    run (handle_request net py_repr full_path)
      = (Ret resp, Get CdnClient (JSDELIVR_CDN ++ "/" ++ full_path) :: calls) /\
    (calls = [] \/ calls = [Get CdnClient (UNPKG_CDN ++ "/" ++ full_path)]) /\
    (status_of resp = 200 \/ status_of resp = 404).
Proof.
  intros Hc. pose proof (file_path_is_its_url full_path _ _ _ Hc) as Hp.
  unfold run, handle_request. rewrite Hc. clear Hc. subst full_path.
  destruct (get_package_file_outcome net package_name version file_path [])
    as (resp & calls & -> & Hst & [-> | ->]).
  - exists resp, []. split; [reflexivity|]. split; [by left | exact Hst].
  - eexists resp, [_]. split; [reflexivity|]. split; [by right | exact Hst].
Qed.

Lemma file_request_is_verbatim_witness :
  exists resp calls,
    run (handle_request net_unpkg_only sample_repr "@vue/shared@3.3.4")
      = (Ret resp, Get CdnClient (JSDELIVR_CDN ++ "/" ++ "@vue/shared@3.3.4") :: calls) /\
    (calls = [] \/ calls = [Get CdnClient (UNPKG_CDN ++ "/" ++ "@vue/shared@3.3.4")]) /\
    (status_of resp = 200 \/ status_of resp = 404).
Proof.
  apply (file_request_is_verbatim net_unpkg_only sample_repr "@vue/shared@3.3.4"
           "" "vue" "shared@3.3.4").
  reflexivity.
Defined.
